(** * SO100 direct joint controller: a shallow embedding of
      [so100_direct_controller.py] and the properties of its command loop.

    The script is a read-eval-print loop around three external objects: the
    robot (connect / disconnect / is_connected), its follower motor bus
    (read / write of a named register of a named joint) and the operator's
    terminal.  The embedding keeps the script's shape:

    - Python [float] is IEEE-754 binary64, here [spec_float] at precision 53
      and maximal exponent 1024 with the Standard Library's [SFadd], [SFsub]
      and [SFltb];
    - Python [str] is [string]; every character is read as the Unicode code
      point of the same number (0..255);
    - the dict [joint_positions] is a [gmap string float];
    - exceptions, the environment and the printed text are threaded by a
      small monad [M]: a computation maps the local variables and the
      environment to a result (a value or a raised exception), the updated
      locals and environment, and the events it produced, in order. *)

From Stdlib Require Import ZArith NArith Ascii String List Bool Lia.
From Stdlib Require Import Floats.SpecFloat.
From stdpp Require Import gmap strings list.

Local Open Scope string_scope.

(** ** Python values and built-ins used by the script *)

Module Py.

(** [float]: binary64. *)
Abbreviation float := spec_float.

Definition prec : Z := 53.
Definition emax : Z := 1024.

Definition fadd : float -> float -> float := SFadd prec emax.
Definition fsub : float -> float -> float := SFsub prec emax.
(** [a > b] on floats is [fgt a b]; false as soon as one side is a NaN. *)
Definition fgt (a b : float) : bool := SFltb b a.

(** The correctly rounded quotient of two integers, [n / d] with [0 < d];
    [neg] is the sign of the result (it also signs a zero). *)
Definition round_ratio (neg : bool) (n d : Z) : float :=
  match n, d with
  | Zpos pn, Zpos pd =>
      SFdiv prec emax (S754_finite neg pn 0) (S754_finite false pd 0)
  | _, _ => S754_zero neg
  end.

(** [float(n)] for an integer [n] (used for the literals of the script). *)
Definition float_of_Z (n : Z) : float :=
  round_ratio (n <? 0)%Z (Z.abs n) 1.

(** *** Characters *)

Definition code (c : ascii) : N := N_of_ascii c.

(** [str.isspace] on one character: the code points below 256 that Python
    counts as whitespace. *)
Definition isspace (c : ascii) : bool :=
  let n := code c in
  ((9 <=? n) && (n <=? 13) || (28 <=? n) && (n <=? 32)
   || (n =? 133) || (n =? 160))%N.

(** [str.lower] on one character: A-Z and the upper-case Latin-1 letters
    (0xC0-0xDE without the multiplication sign 0xD7) move up by 32. *)
Definition lower_char (c : ascii) : ascii :=
  let n := code c in
  if ((65 <=? n) && (n <=? 90)
      || (192 <=? n) && (n <=? 222) && negb (n =? 215))%N
  then ascii_of_N (n + 32) else c.

(** *** [str.strip()], [str.lower()], [str.split()], [str.startswith] *)

Fixpoint lstrip (s : string) : string :=
  match s with
  | String c s' => if isspace c then lstrip s' else s
  | EmptyString => EmptyString
  end.

Fixpoint rstrip (s : string) : string :=
  match s with
  | EmptyString => EmptyString
  | String c s' =>
      match rstrip s' with
      | EmptyString => if isspace c then EmptyString else String c EmptyString
      | t => String c t
      end
  end.

Definition strip (s : string) : string := rstrip (lstrip s).

Fixpoint lower (s : string) : string :=
  match s with
  | EmptyString => EmptyString
  | String c s' => String (lower_char c) (lower s')
  end.

(** [s.split()]: the maximal runs of non-whitespace characters. *)
Fixpoint split (s : string) : list string :=
  match s with
  | EmptyString => []
  | String c s' =>
      if isspace c then split s'
      else match s' with
           | EmptyString => [String c EmptyString]
           | String c' _ =>
               if isspace c' then String c EmptyString :: split s'
               else match split s' with
                    | w :: ws => String c w :: ws
                    | [] => [String c EmptyString]
                    end
           end
  end.

Definition startswith (s p : string) : bool := String.prefix p s.

(** *** Decimal numerals: [int(s)] and [float(s)] *)

Definition digit_of (c : ascii) : option Z :=
  let n := code c in
  if ((48 <=? n) && (n <=? 57))%N then Some (Z.of_N (n - 48)) else None.

(** What may follow the first digit of a digit part: digits, each
    optionally preceded by one underscore.  Returns the digits read and the
    rest of the text. *)
Fixpoint digitpart_rest (s : string) : list Z * string :=
  match s with
  | EmptyString => ([], EmptyString)
  | String c s' =>
      match digit_of c with
      | Some d => let '(ds, r) := digitpart_rest s' in (d :: ds, r)
      | None =>
          if Ascii.eqb c "_" then
            match s' with
            | String c' s'' =>
                match digit_of c' with
                | Some d => let '(ds, r) := digitpart_rest s'' in (d :: ds, r)
                | None => ([], s)
                end
            | EmptyString => ([], s)
            end
          else ([], s)
      end
  end.

(** [digitpart ::= digit (["_"] digit)*] at the head of [s]. *)
Definition digitpart (s : string) : option (list Z * string) :=
  match s with
  | String c s' =>
      match digit_of c with
      | Some d => let '(ds, r) := digitpart_rest s' in Some (d :: ds, r)
      | None => None
      end
  | EmptyString => None
  end.

Definition number_of_digits (ds : list Z) : Z :=
  fold_left (fun acc d => (10 * acc + d)%Z) ds 0%Z.

(** An optional sign: [true] for "-". *)
Definition sign (s : string) : bool * string :=
  match s with
  | String c s' =>
      if Ascii.eqb c "-" then (true, s')
      else if Ascii.eqb c "+" then (false, s')
      else (false, s)
  | EmptyString => (false, s)
  end.

(** CPython's default limit on the digits of a decimal numeral that [int]
    converts ([sys.get_int_max_str_digits()]). *)
Definition int_max_str_digits : Z := 4300.

(** [int(s)], base 10: surrounding whitespace, an optional sign and a digit
    part of at most [int_max_str_digits] digits.  [None] stands for
    [ValueError]. *)
Definition int (s : string) : option Z :=
  let '(neg, body) := sign (strip s) in
  match digitpart body with
  | Some (ds, EmptyString) =>
      if (int_max_str_digits <? Z.of_nat (length ds))%Z then None
      else
        let n := number_of_digits ds in
        Some (if neg then (- n)%Z else n)
  | _ => None
  end.

(** The exponent of a float numeral: ["e" [sign] digitpart] or nothing. *)
Definition exponent (s : string) : option (Z * string) :=
  match s with
  | String c s' =>
      if Ascii.eqb c "e" then
        let '(neg, body) := sign s' in
        match digitpart body with
        | Some (ds, r) =>
            let n := number_of_digits ds in
            Some (if neg then (- n)%Z else n, r)
        | None => None
        end
      else Some (0%Z, s)
  | EmptyString => Some (0%Z, s)
  end.

(** [number ::= [digitpart] "." digitpart | digitpart ["."]], extended by
    the digits that may follow the point: integer digits, fraction digits,
    rest. *)
Definition number (s : string) : option (list Z * list Z * string) :=
  match digitpart s with
  | Some (ipart, r) =>
      match r with
      | String c r' =>
          if Ascii.eqb c "." then
            match digitpart r' with
            | Some (fpart, r'') => Some (ipart, fpart, r'')
            | None => Some (ipart, [], r')
            end
          else Some (ipart, [], r)
      | EmptyString => Some (ipart, [], r)
      end
  | None =>
      match s with
      | String c r' =>
          if Ascii.eqb c "." then
            match digitpart r' with
            | Some (fpart, r'') => Some ([], fpart, r'')
            | None => None
            end
          else None
      | EmptyString => None
      end
  end.

(** The binary64 nearest to [m * 10^e10] (ties to even), signed by [neg]. *)
Definition decimal_to_float (neg : bool) (m e10 : Z) : float :=
  if (0 <=? e10)%Z then round_ratio neg (m * 10 ^ e10) 1
  else round_ratio neg m (10 ^ (- e10)).

(** [float(s)] on a string: surrounding whitespace, an optional sign, then
    "inf", "infinity", "nan" (in any case) or a decimal numeral with an
    optional fraction and exponent.  [None] stands for [ValueError]. *)
Definition float_of_str (s : string) : option float :=
  let '(neg, body) := sign (lower (strip s)) in
  if String.eqb body "inf" || String.eqb body "infinity"
  then Some (S754_infinity neg)
  else if String.eqb body "nan" then Some S754_nan
  else
    match number body with
    | Some (ipart, fpart, r) =>
        match exponent r with
        | Some (e, EmptyString) =>
            Some (decimal_to_float neg
                    (number_of_digits (ipart ++ fpart))
                    (e - Z.of_nat (length fpart)))
        | _ => None
        end
    | None => None
    end.

End Py.

(** ** Exceptions, readings, events *)

(** A raised exception.  [Exception cls msg] is an instance of the subclass
    [cls] of [Exception] whose [str(e)] is [msg]; [KeyboardInterrupt] is not
    an [Exception], so [except Exception] lets it through. *)
Inductive exn : Type :=
| Exception (cls msg : string)
| KeyboardInterrupt.

Inductive result (A : Type) : Type :=
| Ok (a : A)
| Raise (e : exn).
Arguments Ok {A} a.
Arguments Raise {A} e.

(** What [motor_bus.read] may hand back: a number (given by the value
    [float(pos)] has for it), a [numpy.ndarray] (its elements, flattened),
    or some other object on which [float(pos)] raises [cls(msg)]. *)
Inductive reading : Type :=
| Number (v : Py.float)
| NdArray (elems : list Py.float)
| Unconvertible (cls msg : string).

(** One interpolated part of a printed line. *)
Inductive piece : Type :=
| Text (s : string)
| Float (v : Py.float)
| Int (n : Z).

(** What the script does to the outside, in order.  Calls into the robot
    carry their outcome. *)
Inductive event : Type :=
| Print (line : list piece)
| Input (prompt : string)
| Connect (r : result unit)
| Disconnect (r : result unit)
| Read (register joint : string) (r : result reading)
| Write (register : string) (value : Py.float) (joint : string) (r : result unit)
| Sleep (seconds : Py.float) (r : result unit).

(** One thing the operator does at the prompt: a line of text, or Ctrl-C.
    The end of the list is the end of standard input. *)
Inductive keyboard : Type :=
| Line (s : string)
| CtrlC.

(** The robot, its follower motor bus and the clock, as the script uses
    them.  [W] is the state of everything outside the script. *)
Class Robot (W : Type) : Type := {
  robot_is_connected : W -> bool;
  robot_connect : W -> result unit * W;
  robot_disconnect : W -> result unit * W;
  motor_bus_read : string -> string -> W -> result reading * W;
  motor_bus_write : string -> Py.float -> string -> W -> result unit * W;
  time_sleep : Py.float -> W -> result unit * W
}.

(** The local variables of the command loop. *)
Record console : Type := Console {
  joint_positions : gmap string Py.float;
  selected_joint : string;
  step_size : Py.float
}.

Definition joint_names : list string :=
  ["shoulder_pan"; "shoulder_lift"; "elbow_flex"; "wrist_flex"; "wrist_roll";
   "gripper"].

Definition nl : string := String "010" EmptyString.

(** The float literals of the script. *)
Definition f0_0 : Py.float := Eval vm_compute in Py.float_of_Z 0.
Definition f0_5 : Py.float :=
  Eval vm_compute in default S754_nan (Py.float_of_str "0.5").
Definition f300_0 : Py.float := Eval vm_compute in Py.float_of_Z 300.

(** *** The monad

    How a computation ends: its result, the local variables [L] and the
    environment [W] as it left them, and the events it produced. *)

Record outcome (W L A : Type) : Type := Outcome {
  res : result A;
  locals : L;
  env : W;
  events : list event
}.
Arguments Outcome {W L A}.
Arguments res {W L A}.
Arguments locals {W L A}.
Arguments env {W L A}.
Arguments events {W L A}.

Section Script.

Context {W : Type} {R : Robot W}.

Definition M (L A : Type) : Type := L -> W -> outcome W L A.

Definition ret {L A} (a : A) : M L A :=
  fun l w => Outcome (Ok a) l w [].

Definition raise {L A} (e : exn) : M L A :=
  fun l w => Outcome (Raise e) l w [].

Definition bind {L A B} (c : M L A) (k : A -> M L B) : M L B :=
  fun l w =>
    match c l w with
    | Outcome (Ok a) l1 w1 ev1 =>
        match k a l1 w1 with
        | Outcome r l2 w2 ev2 => Outcome r l2 w2 (ev1 ++ ev2)
        end
    | Outcome (Raise e) l1 w1 ev1 => Outcome (Raise e) l1 w1 ev1
    end.

Notation "x <- c ;; k" := (bind c (fun x => k))
  (at level 100, c at next level, right associativity).
Notation "c ;; k" := (bind c (fun _ => k))
  (at level 100, right associativity).

Definition get {L} : M L L := fun l w => Outcome (Ok l) l w [].
Definition modify {L} (f : L -> L) : M L unit :=
  fun l w => Outcome (Ok tt) (f l) w [].

Definition print {L} (line : list piece) : M L unit :=
  fun l w => Outcome (Ok tt) l w [Print line].

(** A call into the environment, logged with its outcome. *)
Definition call {L A} (op : W -> result A * W) (log : result A -> event)
  : M L A :=
  fun l w => let '(r, w') := op w in Outcome r l w' [log r].

(** [try: body / except <classes> as e: handler]; the handler gets
    [str(e)] and runs on the locals as the body left them. *)
Definition try_except {L A} (catches : string -> bool) (body : M L A)
    (handler : string -> M L A) : M L A :=
  fun l w =>
    match body l w with
    | Outcome (Raise (Exception cls msg)) l1 w1 ev1 =>
        if catches cls then
          match handler msg l1 w1 with
          | Outcome r l2 w2 ev2 => Outcome r l2 w2 (ev1 ++ ev2)
          end
        else Outcome (Raise (Exception cls msg)) l1 w1 ev1
    | o => o
    end.

(** [except Exception] catches every class, [except ValueError] one. *)
Definition any_Exception (cls : string) : bool := true.
Definition ValueError (cls : string) : bool := String.eqb cls "ValueError".

Definition try_except_KeyboardInterrupt {L A} (body : M L A)
    (handler : M L A) : M L A :=
  fun l w =>
    match body l w with
    | Outcome (Raise KeyboardInterrupt) l1 w1 ev1 =>
        match handler l1 w1 with
        | Outcome r l2 w2 ev2 => Outcome r l2 w2 (ev1 ++ ev2)
        end
    | o => o
    end.

(** [try: body / finally: cleanup]: the cleanup always runs; what the body
    returned or raised stands unless the cleanup itself raises. *)
Definition try_finally {L A} (body : M L A) (cleanup : M L unit) : M L A :=
  fun l w =>
    match body l w with
    | Outcome r l1 w1 ev1 =>
        match cleanup l1 w1 with
        | Outcome (Ok _) l2 w2 ev2 => Outcome r l2 w2 (ev1 ++ ev2)
        | Outcome (Raise e) l2 w2 ev2 => Outcome (Raise e) l2 w2 (ev1 ++ ev2)
        end
    end.

Fixpoint for_each {L A} (xs : list A) (body : A -> M L unit) : M L unit :=
  match xs with
  | [] => ret tt
  | x :: xs' => body x ;; for_each xs' body
  end.

(** *** Built-ins and library calls in the monad *)

Definition int {L} (s : string) : M L Z :=
  match Py.int s with
  | Some n => ret n
  | None => raise (Exception "ValueError" "invalid literal for int()")
  end.

Definition float {L} (s : string) : M L Py.float :=
  match Py.float_of_str s with
  | Some v => ret v
  | None => raise (Exception "ValueError" "could not convert string to float")
  end.

(** [d[k]]: [KeyError(k)] when the key is missing. *)
Definition getitem {L} (d : gmap string Py.float) (k : string) : M L Py.float :=
  match d !! k with
  | Some v => ret v
  | None => raise (Exception "KeyError" ("'" ++ k ++ "'"))
  end.

Definition read {L} (register joint : string) : M L reading :=
  call (motor_bus_read register joint) (Read register joint).

Definition write {L} (register : string) (value : Py.float) (joint : string)
  : M L unit :=
  call (motor_bus_write register value joint) (Write register value joint).

Definition sleep {L} (seconds : Py.float) : M L unit :=
  call (time_sleep seconds) (Sleep seconds).

Definition connect {L} : M L unit := call robot_connect Connect.
Definition disconnect {L} : M L unit := call robot_disconnect Disconnect.
Definition is_connected {L} : M L bool :=
  fun l w => Outcome (Ok (robot_is_connected w)) l w [].

(** The [isinstance(pos, np.ndarray)] block that follows every read: the
    value it stores.  [pos.item()] raises unless the array has one
    element. *)
Definition position_of {L} (pos : reading) : M L Py.float :=
  match pos with
  | NdArray elems =>
      if (0 <? length elems)%nat then
        match elems with
        | [x] => ret x
        | _ => raise (Exception "ValueError"
                 "can only convert an array of size 1 to a Python scalar")
        end
      else ret f0_0
  | Number v => ret v
  | Unconvertible cls msg => raise (Exception cls msg)
  end.

(** *** The script *)

(** [joint_positions[joint] = v] in the command loop. *)
Definition set_position (joint : string) (v : Py.float) : M console unit :=
  modify (fun st =>
    Console (<[joint := v]> (joint_positions st)) (selected_joint st)
            (step_size st)).

(** Lines 50-62: one turn of the initial read.  The only local variable
    that exists yet is the dict. *)
Definition read_initial_position (joint : string)
  : M (gmap string Py.float) unit :=
  try_except any_Exception
    (pos <- read "Present_Position" joint ;;
     v <- position_of pos ;;
     modify (insert joint v) ;;
     print [Text joint; Text ": "; Float v])
    (fun e =>
     print [Text "Error reading "; Text joint; Text ": "; Text e] ;;
     modify (insert joint f0_0)).

(** Lines 31-62: connect, then read every joint.  (Lines 19-32 build the
    configuration and the robot object inside the library; the embedding
    starts from the robot they return.) *)
Definition startup : M (gmap string Py.float) unit :=
  print [Text "Creating robot object..."] ;;
  print [Text "Connecting to robot..."] ;;
  c <- is_connected ;;
  (if negb c then connect else ret tt) ;;
  print [Text "Robot connected successfully!"] ;;
  print [Text (nl ++ "Reading initial positions...")] ;;
  for_each joint_names read_initial_position.

(** Lines 90-103: [j NUMBER]. *)
Definition select_joint (cmd : string) : M console unit :=
  try_except ValueError
    (let parts := Py.split cmd in
     if (1 <? length parts)%nat then
       n <- int (nth 1 parts "") ;;
       let idx := (n - 1)%Z in
       if ((0 <=? idx) && (idx <? Z.of_nat (length joint_names)))%Z then
         let joint := nth (Z.to_nat idx) joint_names "" in
         modify (fun st => Console (joint_positions st) joint (step_size st)) ;;
         print [Text "Selected joint: "; Text joint]
       else
         print [Text "Invalid joint number. Use 1-";
                Int (Z.of_nat (length joint_names))]
     else print [Text "Usage: j NUMBER"])
    (fun _ => print [Text "Invalid joint number format"]).

(** Lines 105-129 and 131-155: [+] and [-].  The two blocks differ in the
    operator only, [op] is [+] or [-] on floats. *)
Definition move (op : Py.float -> Py.float -> Py.float) : M console unit :=
  try_except any_Exception
    (st <- get ;;
     current_pos <- getitem (joint_positions st) (selected_joint st) ;;
     let target_pos := op current_pos (step_size st) in
     print [Text "Moving "; Text (selected_joint st); Text " from ";
            Float current_pos; Text " to "; Float target_pos] ;;
     write "Goal_Position" target_pos (selected_joint st) ;;
     print [Text "Command sent. Waiting..."] ;;
     sleep f0_5 ;;
     pos <- read "Present_Position" (selected_joint st) ;;
     v <- position_of pos ;;
     set_position (selected_joint st) v ;;
     print [Text "New position: "; Float v])
    (fun e => print [Text "Error: "; Text e]).

(** Lines 157-170: [s NUMBER]. *)
Definition set_step_size (cmd : string) : M console unit :=
  try_except ValueError
    (let parts := Py.split cmd in
     if (1 <? length parts)%nat then
       new_step <- float (nth 1 parts "") ;;
       if Py.fgt new_step f0_0 then
         modify (fun st =>
           Console (joint_positions st) (selected_joint st) new_step) ;;
         print [Text "Step size set to "; Float new_step]
       else print [Text "Step size must be positive"]
     else print [Text "Usage: s NUMBER"])
    (fun _ => print [Text "Invalid step size format"]).

(** Lines 175-186: one turn of the [r] command. *)
Definition read_position (joint : string) : M console unit :=
  try_except any_Exception
    (pos <- read "Present_Position" joint ;;
     v <- position_of pos ;;
     set_position joint v ;;
     print [Text joint; Text ": "; Float v])
    (fun e => print [Text "Error reading "; Text joint; Text ": "; Text e]).

(** Lines 172-186: [r]. *)
Definition read_all : M console unit :=
  print [Text (nl ++ "Reading all positions...")] ;;
  for_each joint_names read_position.

(** Lines 90-189: the branches of the loop body after the test for [q]. *)
Definition command (cmd : string) : M console unit :=
  if Py.startswith cmd "j" then select_joint cmd
  else if String.eqb cmd "+" then move Py.fadd
  else if String.eqb cmd "-" then move Py.fsub
  else if Py.startswith cmd "s" then set_step_size cmd
  else if String.eqb cmd "r" then read_all
  else print [Text "Unknown command"].

Definition prompt : string := "Enter command (j/+/-/s/r/q): ".

(** [input(prompt)]: the next thing the operator does. *)
Definition input {L} (stdin : list keyboard) : M L string :=
  fun l w =>
    Outcome
      match stdin with
      | Line s :: _ => Ok s
      | CtrlC :: _ => Raise KeyboardInterrupt
      | [] => Raise (Exception "EOFError" "EOF when reading a line")
      end l w [Input prompt].

(** Lines 79-189: [while True].  The loop consumes the operator's input;
    when it is used up, [input] raises [EOFError] (so the last branch, for
    an empty [stdin] after a line was read, is never taken). *)
Fixpoint loop (stdin : list keyboard) : M console unit :=
  st <- get ;;
  print [Text (nl ++ "Selected joint: "); Text (selected_joint st)] ;;
  pos <- getitem (joint_positions st) (selected_joint st) ;;
  print [Text "Current position: "; Float pos] ;;
  print [Text "Step size: "; Float (step_size st)] ;;
  line <- input stdin ;;
  let cmd := Py.lower (Py.strip line) in
  if String.eqb cmd "q" then ret tt
  else
    command cmd ;;
    match stdin with
    | _ :: rest => loop rest
    | [] => ret tt
    end.

(** Lines 194-199: the [finally] block. *)
Definition release : M console unit :=
  c <- is_connected ;;
  if c then
    print [Text "Disconnecting robot..."] ;;
    disconnect ;;
    print [Text "Robot disconnected"]
  else ret tt.

(** Lines 78-192: the loop inside [try: ... except KeyboardInterrupt:]. *)
Definition guarded_loop (stdin : list keyboard) : M console unit :=
  try_except_KeyboardInterrupt (loop stdin)
    (print [Text (nl ++ "Program interrupted by user")]).

(** Lines 78-199: the guarded loop and its [finally] block. *)
Definition session (stdin : list keyboard) : M console unit :=
  try_finally (guarded_loop stdin) release.

Definition menu : M console unit :=
  print [Text (nl ++ "Simple Joint Controller")] ;;
  print [Text "======================"] ;;
  print [Text "Commands:"] ;;
  print [Text "  j NUMBER - select joint (1-6)"] ;;
  print [Text "  + - move current joint up/forward"] ;;
  print [Text "  - - move current joint down/backward"] ;;
  print [Text "  s NUMBER - set step size"] ;;
  print [Text "  r - read all positions"] ;;
  print [Text "  q - quit"].

(** [main()], from the creation of the robot on: what it returns or
    raises, the environment it leaves and everything it did. *)
Definition main (stdin : list keyboard) (w : W)
  : result unit * W * list event :=
  match startup ∅ w with
  | Outcome (Ok _) joint_positions w1 ev1 =>
      match (menu ;; session stdin)
              (Console joint_positions (nth 0 joint_names "") f300_0) w1 with
      | Outcome r _ w2 ev2 => (r, w2, (ev1 ++ ev2)%list)
      end
  | Outcome (Raise e) _ w1 ev1 => (Raise e, w1, ev1)
  end.

End Script.

(** ** A scripted robot

    A stand-in for the hardware on which the script can be run inside Rocq:
    reads and writes answer from two scripts, in order. *)

Module Sim.

Record world : Type := World {
  connected : bool;
  read_replies : list (result reading);
  write_replies : list (result unit)
}.

Definition sim_read (w : world) : result reading * world :=
  match read_replies w with
  | r :: rs => (r, World (connected w) rs (write_replies w))
  | [] => (Raise (Exception "ConnectionError" "no reply"), w)
  end.

Definition sim_write (w : world) : result unit * world :=
  match write_replies w with
  | r :: rs => (r, World (connected w) (read_replies w) rs)
  | [] => (Ok tt, w)
  end.

#[global] Instance robot : Robot world := {
  robot_is_connected w := connected w;
  robot_connect w := (Ok tt, World true (read_replies w) (write_replies w));
  robot_disconnect w := (Ok tt, World false (read_replies w) (write_replies w));
  motor_bus_read _ _ w := sim_read w;
  motor_bus_write _ _ _ w := sim_write w;
  time_sleep _ w := (Ok tt, w)
}.

(** The cache of the scenarios: 100.0 for shoulder_pan, 0.0 elsewhere. *)
Definition seeded : gmap string Py.float :=
  <["shoulder_pan" := Py.float_of_Z 100]>
    (list_to_map (map (fun j => (j, f0_0)) joint_names)).

Definition console0 : console := Console seeded "shoulder_pan" f300_0.

(** A connected robot whose next read returns 395.0. *)
Definition reads_395 : world :=
  World true [Ok (Number (Py.float_of_Z 395))] [].

(** A connected robot whose first read fails and whose later reads return
    1.0, 2.0, ... *)
Definition first_read_fails : world :=
  World true
    (Raise (Exception "ConnectionError" "timeout")
     :: map (fun n => Ok (Number (Py.float_of_Z n))) [1; 2; 3; 4; 5]%Z)
    [].

(** A robot, not yet connected, that answers every read of the start-up
    but the second, which fails. *)
Definition second_read_fails : world :=
  World false
    [Ok (Number (Py.float_of_Z 1));
     Raise (Exception "ConnectionError" "timeout");
     Ok (NdArray [Py.float_of_Z 3]); Ok (NdArray []);
     Ok (Number (Py.float_of_Z 5)); Ok (Number (Py.float_of_Z 6))]
    [].

End Sim.


(** ** What is observed of a run *)

(** The writes a run issued: register, value, joint. *)
Definition writes (evs : list event) : list (string * Py.float * string) :=
  flat_map (fun e => match e with
                     | Write reg v j _ => [(reg, v, j)]
                     | _ => []
                     end) evs.

(** The reads a run issued: register, joint. *)
Definition reads (evs : list event) : list (string * string) :=
  flat_map (fun e => match e with
                     | Read reg j _ => [(reg, j)]
                     | _ => []
                     end) evs.

(** How often a run called [robot.disconnect()]. *)
Definition is_disconnect (e : event) : bool :=
  match e with
  | Disconnect _ => true
  | _ => false
  end.

Definition disconnects (evs : list event) : nat :=
  length (List.filter is_disconnect evs).

(** The value of a reading that is a number or an array of one number. *)
Definition scalar_of (pos : reading) : option Py.float :=
  match pos with
  | Number v => Some v
  | NdArray [v] => Some v
  | _ => None
  end.

(** What the initial read stores for a joint, by the outcome of its read. *)
Definition initial_value (r : result reading) : Py.float :=
  match r with
  | Ok (Number v) => v
  | Ok (NdArray [v]) => v
  | _ => f0_0
  end.

(** What the [r] command stores for a joint, by the outcome of its read;
    [None] when it stores nothing. *)
Definition refreshed_value (r : result reading) : option Py.float :=
  match r with
  | Ok (Number v) => Some v
  | Ok (NdArray []) => Some f0_0
  | Ok (NdArray [v]) => Some v
  | _ => None
  end.

(** The invariant of the console state. *)
Definition valid (st : console) : Prop :=
  In (selected_joint st) joint_names /\ Py.fgt (step_size st) f0_0 = true.

(** The commands of the specification's table, told by their first word. *)
Definition defined_command (cmd : string) : bool :=
  match Py.split cmd with
  | word :: _ =>
      bool_decide (word ∈ ["j"; "+"; "-"; "s"; "r"; "q"])
  | [] => false
  end.

(** The reads of a run with their outcomes: joint, outcome. *)
Definition outcomes (evs : list event) : list (string * result reading) :=
  flat_map (fun e => match e with
                     | Read _ j r => [(j, r)]
                     | _ => []
                     end) evs.

(** The text of the exception that the [except Exception] clause around a
    read catches, if there is one. *)
Definition read_error (r : result reading) : option string :=
  match r with
  | Raise (Exception _ msg) => Some msg
  | Ok (Unconvertible _ msg) => Some msg
  | Ok (NdArray (_ :: _ :: _)) =>
      Some "can only convert an array of size 1 to a Python scalar"
  | _ => None
  end.

(** What is printed after a read: the position stored, or the error. *)
Definition read_report (j : string) (r : result reading) : list piece :=
  match refreshed_value r with
  | Some v => [Text j; Text ": "; Float v]
  | None => [Text "Error reading "; Text j; Text ": ";
             Text (default "" (read_error r))]
  end.

(** What one turn of the [r] command does to the local variables, by the
    outcome of its read. *)
Definition refresh (j : string) (r : result reading) (st : console)
  : console :=
  match refreshed_value r with
  | Some v =>
      Console (<[j := v]> (joint_positions st)) (selected_joint st)
              (step_size st)
  | None => st
  end.

(** What one turn of the initial read does to the dict, by the outcome of
    its read (an interrupt from the keyboard is not caught: nothing is
    stored). *)
Definition store_initial (j : string) (r : result reading)
    (d : gmap string Py.float) : gmap string Py.float :=
  match r with
  | Raise KeyboardInterrupt => d
  | _ => <[j := initial_value r]> d
  end.

(** The calls into the robot and the clock among the events of a run. *)
Definition is_call (e : event) : bool :=
  match e with
  | Print _ | Input _ => false
  | _ => true
  end.

Definition calls (evs : list event) : list event := List.filter is_call evs.

(** The exception a call raised, if it raised one. *)
Definition raised (e : event) : option exn :=
  match e with
  | Connect (Raise x) | Disconnect (Raise x) | Read _ _ (Raise x)
  | Write _ _ _ (Raise x) | Sleep _ (Raise x) => Some x
  | _ => None
  end.

(** How often a run called [robot.connect()]. *)
Definition is_connect (e : event) : bool :=
  match e with
  | Connect _ => true
  | _ => false
  end.

Definition connects (evs : list event) : nat :=
  length (List.filter is_connect evs).

(** What the command loop may do to the outside: read the present position
    or write the goal position of one of the six joints, sleep for 0.5,
    print and prompt. *)
Definition on_joints (e : event) : Prop :=
  match e with
  | Read reg j _ => reg = "Present_Position" /\ In j joint_names
  | Write reg _ j _ => reg = "Goal_Position" /\ In j joint_names
  | Sleep seconds _ => seconds = f0_5
  | Connect _ | Disconnect _ => False
  | Print _ | Input _ => True
  end.

(** The keys of the cache are the six joints. *)
Definition full_cache (d : gmap string Py.float) : Prop :=
  forall j, is_Some (d !! j) <-> In j joint_names.

(** A line of the operator that is not [q]. *)
Definition not_quit (key : keyboard) : Prop :=
  match key with
  | Line s => Py.lower (Py.strip s) <> "q"
  | CtrlC => False
  end.

Definition EOFError : exn := Exception "EOFError" "EOF when reading a line".

(** What a loop over the joints [js] may do to the outside: read the
    present position of one of them, and print. *)
Definition reading_of (js : list string) (e : event) : Prop :=
  match e with
  | Read reg j _ => reg = "Present_Position" /\ In j js
  | Print _ => True
  | _ => False
  end.

(** ** The Hub scripts: [upload_dataset.py] and [delete_branch.py]

    Both scripts are straight-line calls into the Hugging Face Hub client
    and the local file system, with logging.  The embedding threads the
    state [W] of these services and records what was called and logged. *)

Module Hub.

(** [pathlib.Path]: the path made from a text, extended by [/]. *)
Inductive path : Type :=
| Path (s : string)
| Div (p : path) (name : string).

(** One interpolated part of a message. *)
Inductive text : Type :=
| Str (s : string)
| PathText (p : path)
| Status (code : option Z).

(** A raised exception: an [HTTPError] of [requests] with the status code
    of its response ([None] without a response), any other [Exception] by
    its class, or [KeyboardInterrupt]; [msg] is [str(e)]. *)
Inductive error : Type :=
| HTTPError (status_code : option Z) (msg : list text)
| Error (cls : string) (msg : list text)
| Interrupt.

Definition str (e : error) : list text :=
  match e with
  | HTTPError _ msg => msg
  | Error _ msg => msg
  | Interrupt => []
  end.

(** [isinstance(e, Exception)]. *)
Definition is_Exception (e : error) : bool :=
  match e with
  | Interrupt => false
  | _ => true
  end.

Inductive res (A : Type) : Type :=
| Done (a : A)
| Raised (e : error).
Arguments Done {A} a.
Arguments Raised {A} e.

Inductive event : Type :=
| Log (level : string) (line : list text)
| Print (line : list text)
| PrintTraceback
| Exists (p : path) (b : bool)
| ValidateRepoId (repo_id : string) (r : res unit)
| CreateRepo (repo_id repo_type : string) (exist_ok private : bool)
    (r : res unit)
| CreateCard (repo_id description : string) (r : res unit)
| UploadFolder (folder_path : path) (repo_id repo_type commit_message : string)
    (r : res unit)
| CreateBranch (repo_id branch repo_type : string) (r : res unit)
| DeleteBranch (repo_id branch repo_type : string) (r : res unit).

(** The file system, [validate_repo_id], [HfApi] and the two helpers of
    [lerobot.common.datasets.utils], as the scripts use them. *)
Class Services (W : Type) : Type := {
  path_exists : path -> W -> bool;
  validate_repo_id : string -> W -> res unit * W;
  api_create_repo : string -> string -> bool -> bool -> W -> res unit * W;
  create_lerobot_dataset_card : string -> string -> W -> res unit * W;
  api_upload_folder : path -> string -> string -> string -> W -> res unit * W;
  create_branch : string -> string -> string -> W -> res unit * W;
  api_delete_branch : string -> string -> string -> W -> res unit * W
}.

(** The parsed arguments of [delete_branch.py]. *)
Record delete_args : Type := DeleteArgs {
  repo_id : string;
  branch : string;
  repo_type : string
}.

(** The parsed arguments of [upload_dataset.py]. *)
Record upload_args : Type := UploadArgs {
  local_path : string;
  upload_repo_id : string;
  version : string;
  description : string;
  private : bool
}.

Section Scripts.

Context {W : Type} {S : Services W}.

(** A computation: its result, the services as it left them, and what it
    did, in order. *)
Definition M (A : Type) : Type := W -> res A * W * list event.

Definition ret {A} (a : A) : M A := fun w => (Done a, w, []).

Definition raise {A} (e : error) : M A := fun w => (Raised e, w, []).

Definition bind {A B} (c : M A) (k : A -> M B) : M B :=
  fun w =>
    match c w with
    | (Done a, w1, ev1) =>
        match k a w1 with
        | (r, w2, ev2) => (r, w2, (ev1 ++ ev2)%list)
        end
    | (Raised e, w1, ev1) => (Raised e, w1, ev1)
    end.

Notation "x <- c ;; k" := (bind c (fun x => k))
  (at level 100, c at next level, right associativity).
Notation "c ;; k" := (bind c (fun _ => k))
  (at level 100, right associativity).

Definition log (level : string) (line : list text) : M unit :=
  fun w => (Done tt, w, [Log level line]).

Definition print (line : list text) : M unit :=
  fun w => (Done tt, w, [Print line]).

Definition print_exc : M unit := fun w => (Done tt, w, [PrintTraceback]).

Definition call {A} (op : W -> res A * W) (record : res A -> event) : M A :=
  fun w => let '(r, w') := op w in (r, w', [record r]).

Definition exists_ (p : path) : M bool :=
  fun w => (Done (path_exists p w), w, [Exists p (path_exists p w)]).

(** [try: body / except Exception as e: handler]. *)
Definition try_except_Exception {A} (body : M A) (handler : error -> M A)
  : M A :=
  fun w =>
    match body w with
    | (Raised e, w1, ev1) =>
        if is_Exception e then
          match handler e w1 with
          | (r, w2, ev2) => (r, w2, (ev1 ++ ev2)%list)
          end
        else (Raised e, w1, ev1)
    | o => o
    end.

(** [upload_dataset_to_hf], lines 18-83 of [upload_dataset.py]. *)
Definition upload_dataset_to_hf (local_dataset_path repo_id version
    description : string) (private : bool) : M string :=
  let local_path := Path local_dataset_path in
  ok <- exists_ local_path ;;
  if negb ok then
    raise (Error "FileNotFoundError"
             [Str "Local dataset path does not exist: "; PathText local_path])
  else
    let info_path := Div (Div local_path "meta") "info.json" in
    ok <- exists_ info_path ;;
    if negb ok then
      raise (Error "FileNotFoundError"
               [Str "Required metadata file not found: "; PathText info_path])
    else
      call (validate_repo_id repo_id) (ValidateRepoId repo_id) ;;
      log "INFO" [Str "Creating or updating dataset repository: ";
                  Str repo_id] ;;
      try_except_Exception
        (call (api_create_repo repo_id "dataset" true private)
           (CreateRepo repo_id "dataset" true private) ;;
         call (create_lerobot_dataset_card repo_id description)
           (CreateCard repo_id description) ;;
         log "INFO" [Str "Uploading dataset files to "; Str repo_id;
                     Str "..."] ;;
         call (api_upload_folder local_path repo_id "dataset"
                 ("Upload dataset with version " ++ version))
           (UploadFolder local_path repo_id "dataset"
              ("Upload dataset with version " ++ version)) ;;
         call (create_branch repo_id version "dataset")
           (CreateBranch repo_id version "dataset") ;;
         log "INFO" [Str "Successfully created version branch/tag: ";
                     Str version] ;;
         log "INFO" [Str "Dataset uploaded successfully to "; Str repo_id;
                     Str " with version "; Str version] ;;
         ret ("https://huggingface.co/datasets/" ++ repo_id))
        (fun e =>
         log "ERROR" (Str "Error uploading dataset: " :: str e) ;;
         raise e).

(** Lines 120-130 of [upload_dataset.py]: the script, from the parsed
    arguments on. *)
Definition upload_main (args : upload_args) : M unit :=
  result_url <- upload_dataset_to_hf (local_path args) (upload_repo_id args)
                  (version args) (description args) (private args) ;;
  print [Str (nl ++ "Dataset uploaded successfully!")] ;;
  print [Str "Dataset URL: "; Str result_url] ;;
  print [Str "To visualize it, run: python lerobot/scripts/visualize_dataset.py --repo-id ";
         Str (upload_repo_id args); Str " --episode-index 0"].

(** The [except] clauses of [delete_branch.py], lines 29-46. *)
Definition report_delete_error (args : delete_args) (e : error) : M unit :=
  match e with
  | HTTPError status_code _ =>
      if bool_decide (status_code = Some 401%Z) then
        log "ERROR" [Str "Error: Authentication failed (HTTP 401). Check your Hugging Face token."]
      else if bool_decide (status_code = Some 403%Z) then
        log "ERROR" [Str "Error: Access denied (HTTP 403). Make sure you have rights to modify this repository."]
      else if bool_decide (status_code = Some 404%Z) then
        log "ERROR" [Str "Error: Repository '"; Str (repo_id args);
                     Str "' or branch '"; Str (branch args);
                     Str "' not found (HTTP 404)."]
      else if bool_decide (status_code = Some 412%Z) then
        log "ERROR" [Str "Error: Cannot delete branch '"; Str (branch args);
                     Str "' because it is likely the default branch (HTTP 412)."] ;;
        log "ERROR" [Str "Please set a different default branch first in the repository settings on the Hugging Face website."]
      else
        log "ERROR" (Str "HTTP Error deleting branch (Status: "
                     :: Status status_code :: Str "): " :: str e)
  | _ =>
      log "ERROR" (Str "An unexpected error occurred: " :: str e) ;;
      print_exc
  end.

(** [main] of [delete_branch.py], lines 17-46: from the parsed arguments
    on. *)
Definition delete_branch_main (args : delete_args) : M unit :=
  (if String.eqb (branch args) "main" then
     log "WARNING" [Str "Warning: Attempting to delete the 'main' branch."] ;;
     log "WARNING" [Str "Ensure you have set a different default branch first via the website settings."]
   else ret tt) ;;
  try_except_Exception
    (log "INFO" [Str "Attempting to delete branch '"; Str (branch args);
                 Str "' from "; Str (repo_type args); Str " repository '";
                 Str (repo_id args); Str "'..."] ;;
     call (api_delete_branch (repo_id args) (branch args) (repo_type args))
       (DeleteBranch (repo_id args) (branch args) (repo_type args)) ;;
     log "INFO" [Str "Successfully deleted branch '"; Str (branch args);
                 Str "'."])
    (report_delete_error args).

End Scripts.

(** What is observed of a run: what it returned or raised, what it did. *)
Definition result_of {W A} (o : res A * W * list event) : res A :=
  fst (fst o).

Definition events_of {W A} (o : res A * W * list event) : list event :=
  snd o.

(** The calls that reach the Hub. *)
Definition is_hub_call (e : event) : bool :=
  match e with
  | CreateRepo _ _ _ _ _ | UploadFolder _ _ _ _ _ | CreateBranch _ _ _ _
  | DeleteBranch _ _ _ _ => true
  | _ => false
  end.

Definition hub_calls (evs : list event) : list event :=
  List.filter is_hub_call evs.

(** The logged lines of one level. *)
Definition logged (level : string) (evs : list event) : list (list text) :=
  flat_map (fun e => match e with
                     | Log l line => if String.eqb l level then [line] else []
                     | _ => []
                     end) evs.

(** The exception a call raised, if it raised one. *)
Definition raised (e : event) : option error :=
  match e with
  | ValidateRepoId _ (Raised x) | CreateRepo _ _ _ _ (Raised x)
  | CreateCard _ _ (Raised x) | UploadFolder _ _ _ _ (Raised x)
  | CreateBranch _ _ _ (Raised x) | DeleteBranch _ _ _ (Raised x) => Some x
  | _ => None
  end.

(** A scripted Hub: the file system is a list of existing paths; every
    service answers from one script of replies, in order, and succeeds when
    the script is used up. *)
Record sim : Type := Sim {
  files : list path;
  replies : list (res unit)
}.

Definition sim_reply (w : sim) : res unit * sim :=
  match replies w with
  | r :: rs => (r, Sim (files w) rs)
  | [] => (Done tt, w)
  end.

Fixpoint path_eqb (p q : path) : bool :=
  match p, q with
  | Path s, Path t => String.eqb s t
  | Div p' a, Div q' b => path_eqb p' q' && String.eqb a b
  | _, _ => false
  end.

#[global] Instance sim_services : Services sim := {
  path_exists p w := existsb (path_eqb p) (files w);
  validate_repo_id _ w := sim_reply w;
  api_create_repo _ _ _ _ w := sim_reply w;
  create_lerobot_dataset_card _ _ w := sim_reply w;
  api_upload_folder _ _ _ _ w := sim_reply w;
  create_branch _ _ _ w := sim_reply w;
  api_delete_branch _ _ _ w := sim_reply w
}.

(** A dataset directory with its metadata file. *)
Definition dataset_files : list path :=
  [Path "data"; Div (Div (Path "data") "meta") "info.json"].

End Hub.

(** ** Properties *)

(** *** The built-ins on sample inputs *)

Example strip_lower_sample : Py.lower (Py.strip "  J 3 ") = "j 3".
Proof. reflexivity. Qed.

Example split_sample :
  map Py.split [" j   3  x"; "j3"; ""] = [["j"; "3"; "x"]; ["j3"]; []].
Proof. reflexivity. Qed.

Example int_sample :
  map Py.int ["3"; "-3"; "+0_3"; "007"; "3_"; "_3"; "3.0"; "1e3"; "+"; ""]
  = [Some 3; Some (-3); Some 3; Some 7; None; None; None; None; None; None]%Z.
Proof. reflexivity. Qed.

Example float_sample :
  map Py.float_of_str
    ["0.1"; "-5"; "5."; ".5"; "1e3"; "1_0.2_5e-0_1"; "-0"; "inf"; "-nan";
     "1e400"; "1e-400"; "5e-324"; "1.7976931348623157e308"; "."; "1e";
     "e5"; "0x10"; "abc"]
  = [Some (S754_finite false 7205759403792794 (-56));
     Some (Py.float_of_Z (-5)); Some (Py.float_of_Z 5);
     Some f0_5; Some (Py.float_of_Z 1000);
     Some (S754_finite false 4616189618054758 (-52));
     Some (S754_zero true); Some (S754_infinity false); Some S754_nan;
     Some (S754_infinity false); Some (S754_zero false);
     Some (S754_finite false 1 (-1074));
     Some (S754_finite false 9007199254740991 971);
     None; None; None; None; None].
Proof. vm_compute. reflexivity. Qed.

Example literals_sample :
  Py.float_of_str "0.0" = Some f0_0 /\
  Py.float_of_str "300.0" = Some f300_0 /\
  Py.fadd (Py.float_of_Z 100) f300_0 = Py.float_of_Z 400 /\
  Py.fsub (Py.float_of_Z 100) f300_0 = Py.float_of_Z (-200) /\
  Py.fgt f300_0 f0_0 = true /\
  Py.fgt S754_nan f0_0 = false.
Proof. vm_compute. repeat split; reflexivity. Qed.

(** A whole run of [main] on the scripted robot: the second initial read
    fails, the operator selects joint 2, moves it, and quits. *)
Example main_sample :
  main [Line "j 2"; Line " + "; Line "Q"] Sim.second_read_fails
  = (Ok tt, Sim.World false [] [],
     events (startup ∅ Sim.second_read_fails)
     ++ events (menu Sim.console0 Sim.reads_395)
     ++ [Print [Text (nl ++ "Selected joint: "); Text "shoulder_pan"];
         Print [Text "Current position: "; Float (Py.float_of_Z 1)];
         Print [Text "Step size: "; Float f300_0];
         Input prompt;
         Print [Text "Selected joint: "; Text "shoulder_lift"];
         Print [Text (nl ++ "Selected joint: "); Text "shoulder_lift"];
         Print [Text "Current position: "; Float f0_0];
         Print [Text "Step size: "; Float f300_0];
         Input prompt;
         Print [Text "Moving "; Text "shoulder_lift"; Text " from ";
                Float f0_0; Text " to "; Float f300_0];
         Write "Goal_Position" f300_0 "shoulder_lift" (Ok tt);
         Print [Text "Command sent. Waiting..."];
         Sleep f0_5 (Ok tt);
         Read "Present_Position" "shoulder_lift"
           (Raise (Exception "ConnectionError" "no reply"));
         Print [Text "Error: "; Text "no reply"];
         Print [Text (nl ++ "Selected joint: "); Text "shoulder_lift"];
         Print [Text "Current position: "; Float f0_0];
         Print [Text "Step size: "; Float f300_0];
         Input prompt;
         Print [Text "Disconnecting robot..."];
         Disconnect (Ok tt);
         Print [Text "Robot disconnected"]])%list.
Proof. vm_compute. reflexivity. Qed.

Section Proofs.

Context {W : Type} {R : Robot W}.

(** Symbolic execution: [run] unfolds the monad on known outcomes, [step]
    splits on the next answer of the environment. *)
Ltac run :=
  cbv beta iota zeta delta
    [move read_position read_initial_position try_except bind get getitem
     print write sleep read call position_of set_position modify ret raise
     any_Exception res locals env events Nat.ltb Nat.leb length].

Ltac step :=
  match goal with
  | |- context [motor_bus_write ?a ?b ?c ?w] =>
      destruct (motor_bus_write a b c w) as [[[]|[cls msg|]] ?] eqn:?
  | |- context [time_sleep ?a ?w] =>
      destruct (time_sleep a w) as [[[]|[cls msg|]] ?] eqn:?
  | |- context [motor_bus_read ?a ?b ?w] =>
      destruct (motor_bus_read a b w)
        as [[[v|[|x [|y elems]]|cls msg]|[cls msg|]] ?] eqn:?
  end; run.

Ltac lookup_selected st :=
  destruct (joint_positions st !! selected_joint st) eqn:?; run.

(** *** The branches of [command] *)

Lemma command_plus (st : console) (w : W) :
  command "+" st w = move Py.fadd st w.
Proof. reflexivity. Qed.

Lemma command_minus (st : console) (w : W) :
  command "-" st w = move Py.fsub st w.
Proof. reflexivity. Qed.

Lemma command_r (st : console) (w : W) : command "r" st w = read_all st w.
Proof. reflexivity. Qed.

Lemma command_j (cmd : string) (st : console) (w : W) :
  Py.startswith cmd "j" = true -> command cmd st w = select_joint cmd st w.
Proof. intros H. unfold command. now rewrite H. Qed.

Lemma startswith_char (a : ascii) (cmd : string) :
  Py.startswith cmd (String a "") = true -> exists rest, cmd = String a rest.
Proof.
  destruct cmd as [|c rest]; cbn; [discriminate|].
  destruct (ascii_dec a c) as [->|]; [eauto | discriminate].
Qed.

Lemma command_s (cmd : string) (st : console) (w : W) :
  Py.startswith cmd "s" = true -> command cmd st w = set_step_size cmd st w.
Proof.
  intros H. destruct (startswith_char _ _ H) as [rest ->].
  unfold command. rewrite H. reflexivity.
Qed.

(** *** [+] and [-] *)

Lemma move_writes (op : Py.float -> Py.float -> Py.float) (st : console)
    (w : W) (P : Py.float) :
  joint_positions st !! selected_joint st = Some P ->
  writes (events (move op st w))
  = [("Goal_Position", op P (step_size st), selected_joint st)].
Proof.
  intros HP. run. rewrite HP. run. repeat step; reflexivity.
Qed.

Lemma move_frame (op : Py.float -> Py.float -> Py.float) (st : console)
    (w : W) :
  selected_joint (locals (move op st w)) = selected_joint st /\
  step_size (locals (move op st w)) = step_size st /\
  delete (selected_joint st) (joint_positions (locals (move op st w)))
  = delete (selected_joint st) (joint_positions st).
Proof.
  run. lookup_selected st; repeat step;
    cbn [selected_joint step_size joint_positions];
    repeat split; try reflexivity; apply delete_insert_eq.
Qed.

Lemma move_round_trip (op : Py.float -> Py.float -> Py.float) (st : console)
    (w : W) (pos : reading) (V : Py.float) :
  In (Read "Present_Position" (selected_joint st) (Ok pos))
     (events (move op st w)) ->
  scalar_of pos = Some V ->
  res (move op st w) = Ok tt /\
  joint_positions (locals (move op st w)) !! selected_joint st = Some V.
Proof.
  run. lookup_selected st; repeat step; cbn [In]; intros Hin Hpos;
    repeat (destruct Hin as [Hin|Hin]; try discriminate Hin);
    try contradiction; injection Hin as <-; cbn in Hpos;
    try discriminate Hpos; injection Hpos as <-;
    (split; [reflexivity | apply lookup_insert_eq]).
Qed.

(** *** [j NUMBER] and [s NUMBER] *)

Lemma select_joint_eq (cmd : string) (st : console) (w : W) :
  select_joint cmd st w =
  match Py.split cmd !! 1%nat with
  | None => Outcome (Ok tt) st w [Print [Text "Usage: j NUMBER"]]
  | Some a =>
      match Py.int a with
      | None =>
          Outcome (Ok tt) st w [Print [Text "Invalid joint number format"]]
      | Some n =>
          if ((1 <=? n) && (n <=? 6))%Z then
            let joint := nth (Z.to_nat (n - 1)) joint_names "" in
            Outcome (Ok tt)
              (Console (joint_positions st) joint (step_size st)) w
              [Print [Text "Selected joint: "; Text joint]]
          else
            Outcome (Ok tt) st w
              [Print [Text "Invalid joint number. Use 1-"; Int 6]]
      end
  end.
Proof.
  unfold select_joint.
  destruct (Py.split cmd) as [|p0 [|a ps]]; try reflexivity.
  cbn [lookup list_lookup nth].
  change ((1 <? length (p0 :: a :: ps))%nat) with true. cbv iota.
  unfold int. destruct (Py.int a) as [n|]; [|reflexivity].
  change (Z.of_nat (length joint_names)) with 6%Z.
  cbv beta iota zeta delta [try_except bind ret].
  replace ((0 <=? n - 1) && (n - 1 <? 6))%Z with ((1 <=? n) && (n <=? 6))%Z.
  - destruct ((1 <=? n) && (n <=? 6))%Z; reflexivity.
  - destruct (Z.leb_spec 1 n), (Z.leb_spec n 6), (Z.leb_spec 0 (n - 1)),
      (Z.ltb_spec (n - 1) 6); try reflexivity; exfalso; lia.
Qed.

Lemma set_step_size_eq (cmd : string) (st : console) (w : W) :
  set_step_size cmd st w =
  match Py.split cmd !! 1%nat with
  | None => Outcome (Ok tt) st w [Print [Text "Usage: s NUMBER"]]
  | Some a =>
      match Py.float_of_str a with
      | None => Outcome (Ok tt) st w [Print [Text "Invalid step size format"]]
      | Some new_step =>
          if Py.fgt new_step f0_0 then
            Outcome (Ok tt)
              (Console (joint_positions st) (selected_joint st) new_step) w
              [Print [Text "Step size set to "; Float new_step]]
          else
            Outcome (Ok tt) st w [Print [Text "Step size must be positive"]]
      end
  end.
Proof.
  unfold set_step_size.
  destruct (Py.split cmd) as [|p0 [|a ps]]; try reflexivity.
  cbn [lookup list_lookup nth].
  change ((1 <? length (p0 :: a :: ps))%nat) with true. cbv iota.
  unfold float. destruct (Py.float_of_str a) as [x|]; [|reflexivity].
  destruct (Py.fgt x f0_0) eqn:Hgt;
    cbv beta iota zeta delta [try_except bind ret modify print];
    rewrite Hgt; reflexivity.
Qed.

Lemma in_range_cases (n : Z) :
  ((1 <=? n) && (n <=? 6))%Z = true ->
  n = 1%Z \/ n = 2%Z \/ n = 3%Z \/ n = 4%Z \/ n = 5%Z \/ n = 6%Z.
Proof.
  intros H. apply andb_prop in H as [H1 H2].
  apply Z.leb_le in H1, H2. lia.
Qed.

Lemma nth_joint_names (n : Z) :
  ((1 <=? n) && (n <=? 6))%Z = true ->
  joint_names !! Z.to_nat (n - 1)
  = Some (nth (Z.to_nat (n - 1)) joint_names "").
Proof.
  intros H.
  destruct (in_range_cases n H) as [->|[->|[->|[->|[->| ->]]]]]; reflexivity.
Qed.

(** A float that is [<= 0.0], or a NaN, is not [> 0.0]. *)
Lemma not_positive (F : Py.float) :
  SFleb F f0_0 = true \/ F = S754_nan -> Py.fgt F f0_0 = false.
Proof.
  intros [H | ->]; [|reflexivity].
  destruct F as [[]|[]| |[] m e]; try reflexivity; discriminate H.
Qed.


(** *** Loops over the joints *)

Section ReadLoop.

Context {L : Type} (body : string -> M (W:=W) L unit).
Context (upd : string -> result reading -> L -> L).
Hypothesis body_eq : forall j l w,
  body j l w =
  match motor_bus_read "Present_Position" j w with
  | (Raise KeyboardInterrupt, w') =>
      Outcome (Raise KeyboardInterrupt) l w'
        [Read "Present_Position" j (Raise KeyboardInterrupt)]
  | (r, w') =>
      Outcome (Ok tt) (upd j r l) w'
        [Read "Present_Position" j r; Print (read_report j r)]
  end.
Hypothesis upd_interrupt : forall j l, upd j (Raise KeyboardInterrupt) l = l.

Lemma body_cases (j : string) (l : L) (w : W) :
  exists r w',
    (r = Raise KeyboardInterrupt /\
     body j l w = Outcome (Raise KeyboardInterrupt) l w'
                    [Read "Present_Position" j (Raise KeyboardInterrupt)]) \/
    (r <> Raise KeyboardInterrupt /\
     body j l w = Outcome (Ok tt) (upd j r l) w'
                    [Read "Present_Position" j r; Print (read_report j r)]).
Proof.
  rewrite body_eq.
  destruct (motor_bus_read "Present_Position" j w) as [r w'].
  exists r, w'. destruct r as [a|[cls msg|]]; [right|right|left];
    (split; [congruence | reflexivity]).
Qed.

Lemma for_each_reads (js : list string) (l : L) (w : W) :
  (res (for_each js body l w) = Ok tt /\
   map fst (outcomes (events (for_each js body l w))) = js \/
   res (for_each js body l w) = Raise KeyboardInterrupt /\
   exists j, In (Read "Present_Position" j (Raise KeyboardInterrupt))
               (events (for_each js body l w))) /\
  (exists rest,
     js = (map fst (outcomes (events (for_each js body l w))) ++ rest)%list) /\
  reads (events (for_each js body l w))
  = map (pair "Present_Position")
      (map fst (outcomes (events (for_each js body l w)))) /\
  locals (for_each js body l w)
  = fold_left (fun l jr => upd (fst jr) (snd jr) l)
      (outcomes (events (for_each js body l w))) l /\
  (forall j r,
     In (Read "Present_Position" j r) (events (for_each js body l w)) ->
     In (j, r) (outcomes (events (for_each js body l w))) /\
     (r <> Raise KeyboardInterrupt ->
      In (Print (read_report j r)) (events (for_each js body l w)))).
Proof.
  revert l w. induction js as [|j0 js IH]; intros l w.
  - cbn. split; [now left|]. split; [now exists []|].
    repeat split; try reflexivity; contradiction.
  - cbn [for_each]. unfold bind.
    destruct (body_cases j0 l w) as (r0 & w' & [[-> ->] | [Hr0 ->]]).
    + cbn. rewrite upd_interrupt. split; [right; eauto|].
      split; [now exists js|]. split; [reflexivity|]. split; [reflexivity|].
      intros j r [[= <- <-] | []]. split; [now left | congruence].
    + specialize (IH (upd j0 r0 l) w').
      destruct (for_each js body (upd j0 r0 l) w') as [r2 l2 w2 ev2].
      cbn [res locals env events] in *.
      destruct IH as (Hres & [rest Hpre] & Hreads & Hloc & Hin).
      cbn [app reads outcomes flat_map map fold_left fst snd].
      fold (reads ev2). fold (outcomes ev2).
      split.
      { destruct Hres as [[-> ->] | [-> [j Hj]]]; [now left|].
        right. split; [reflexivity|]. exists j. now do 2 right. }
      split; [exists rest; cbn; now rewrite <- Hpre|].
      split; [now rewrite Hreads|]. split; [exact Hloc|].
      intros j r [H | [H | H]]; [injection H as <- <- | discriminate H |].
      * split; [now left | right; now left].
      * destruct (Hin j r H) as [H1 H2].
        split; [now right | intros Hne; do 2 right; now apply H2].
Qed.

Lemma for_each_head (j : string) (js : list string) (l : L) (w : W) :
  exists r,
    In (Read "Present_Position" j r) (events (for_each (j :: js) body l w)).
Proof.
  cbn [for_each]. unfold bind.
  destruct (body_cases j l w) as (r0 & w' & [[-> ->] | [Hr0 ->]]).
  - exists (Raise KeyboardInterrupt). now left.
  - exists r0. destruct (for_each js body (upd j r0 l) w').
    cbn [events app]. now left.
Qed.

(** A read that did not raise [KeyboardInterrupt] is followed by the read of
    the next name of the list. *)
Lemma for_each_continues (js : list string) (l : L) (w : W) :
  NoDup js ->
  forall pre j next post r,
    js = (pre ++ j :: next :: post)%list ->
    In (Read "Present_Position" j r) (events (for_each js body l w)) ->
    r <> Raise KeyboardInterrupt ->
    exists r',
      In (Read "Present_Position" next r') (events (for_each js body l w)).
Proof.
  revert l w. induction js as [|j0 js IH]; intros l w Hnd pre j next post r
    Hjs Hin Hr.
  - now destruct pre.
  - inversion Hnd as [|? ? Hnotin Hnd']; subst.
    assert (Hsplit : pre = [] /\ j0 = j /\ js = next :: post \/
                     exists pre', pre = j0 :: pre' /\
                                  js = (pre' ++ j :: next :: post)%list).
    { destruct pre as [|p pre']; cbn in Hjs; injection Hjs as -> ->;
        [left; auto | right; eauto]. }
    clear Hjs. revert Hin. cbn [for_each]. unfold bind.
    destruct (body_cases j0 l w) as (r0 & w' & [[-> ->] | [Hr0 ->]]).
    + cbn. intros [[= <- <-] | []]. congruence.
    + destruct Hsplit as [(-> & -> & ->) | (pre' & -> & Hjs)].
      * intros _.
        destruct (for_each_head next post (upd j r0 l) w') as [r' Hr'].
        destruct (for_each (next :: post) body (upd j r0 l) w').
        cbn [events app] in *. exists r'. now do 2 right.
      * specialize (IH (upd j0 r0 l) w' Hnd' pre' j next post r Hjs).
        destruct (for_each js body (upd j0 r0 l) w') as [r2 l2 w2 ev2].
        cbn [events app] in *.
        intros [H | [H | H]]; [injection H as <- <- | discriminate H |].
        { exfalso. apply Hnotin. rewrite Hjs. apply list_elem_of_In.
          apply in_or_app. right. now left. }
        destruct (IH H Hr) as [r' Hr']. exists r'. now do 2 right.
Qed.

End ReadLoop.

Lemma read_position_eq (j : string) (st : console) (w : W) :
  read_position j st w =
  match motor_bus_read "Present_Position" j w with
  | (Raise KeyboardInterrupt, w') =>
      Outcome (Raise KeyboardInterrupt) st w'
        [Read "Present_Position" j (Raise KeyboardInterrupt)]
  | (r, w') =>
      Outcome (Ok tt) (refresh j r st) w'
        [Read "Present_Position" j r; Print (read_report j r)]
  end.
Proof. run. step; reflexivity. Qed.

Lemma read_initial_position_eq (j : string) (d : gmap string Py.float)
    (w : W) :
  read_initial_position j d w =
  match motor_bus_read "Present_Position" j w with
  | (Raise KeyboardInterrupt, w') =>
      Outcome (Raise KeyboardInterrupt) d w'
        [Read "Present_Position" j (Raise KeyboardInterrupt)]
  | (r, w') =>
      Outcome (Ok tt) (store_initial j r d) w'
        [Read "Present_Position" j r; Print (read_report j r)]
  end.
Proof. run. step; reflexivity. Qed.

Lemma joint_names_NoDup : NoDup joint_names.
Proof. apply (bool_decide_unpack _). vm_compute. reflexivity. Qed.

(** Folding the stores of a loop over its read outcomes. *)

Lemma fold_initial_other (outs : list (string * result reading))
    (d : gmap string Py.float) (j : string) :
  ~ In j (map fst outs) ->
  fold_left (fun d jr => store_initial (fst jr) (snd jr) d) outs d !! j
  = d !! j.
Proof.
  revert d. induction outs as [|[j0 r0] outs IH]; intros d Hj; [reflexivity|].
  cbn in *. rewrite IH by tauto.
  destruct r0 as [?|[|]]; cbn; try reflexivity; apply lookup_insert_ne; tauto.
Qed.

Lemma fold_initial_lookup (outs : list (string * result reading))
    (d : gmap string Py.float) (j : string) (r : result reading) :
  NoDup (map fst outs) -> In (j, r) outs -> r <> Raise KeyboardInterrupt ->
  fold_left (fun d jr => store_initial (fst jr) (snd jr) d) outs d !! j
  = Some (initial_value r).
Proof.
  revert d. induction outs as [|[j0 r0] outs IH]; intros d Hnd Hin Hr; [easy|].
  cbn in *. apply NoDup_cons in Hnd as [Hj0 Hnd].
  destruct Hin as [[= -> ->] | Hin].
  - rewrite fold_initial_other by (rewrite <- list_elem_of_In; exact Hj0).
    destruct r as [?|[|]]; cbn; try congruence; apply lookup_insert_eq.
  - now apply IH.
Qed.

Lemma fold_refresh_frame (outs : list (string * result reading))
    (st : console) :
  selected_joint (fold_left (fun l jr => refresh (fst jr) (snd jr) l) outs st)
  = selected_joint st /\
  step_size (fold_left (fun l jr => refresh (fst jr) (snd jr) l) outs st)
  = step_size st.
Proof.
  revert st. induction outs as [|[j0 r0] outs IH]; intros st; [easy|].
  cbn. destruct (IH (refresh j0 r0 st)) as [-> ->].
  unfold refresh. now destruct (refreshed_value r0).
Qed.

Lemma fold_refresh_other (outs : list (string * result reading))
    (st : console) (j : string) :
  ~ In j (map fst outs) ->
  joint_positions
    (fold_left (fun l jr => refresh (fst jr) (snd jr) l) outs st) !! j
  = joint_positions st !! j.
Proof.
  revert st. induction outs as [|[j0 r0] outs IH]; intros st Hj; [reflexivity|].
  cbn in *. rewrite IH by tauto. unfold refresh.
  destruct (refreshed_value r0); [|reflexivity].
  apply lookup_insert_ne. tauto.
Qed.

Lemma fold_refresh_lookup (outs : list (string * result reading))
    (st : console) (j : string) (r : result reading) :
  NoDup (map fst outs) -> In (j, r) outs ->
  joint_positions
    (fold_left (fun l jr => refresh (fst jr) (snd jr) l) outs st) !! j
  = match refreshed_value r with
    | Some v => Some v
    | None => joint_positions st !! j
    end.
Proof.
  revert st. induction outs as [|[j0 r0] outs IH]; intros st Hnd Hin; [easy|].
  cbn in *. apply NoDup_cons in Hnd as [Hj0 Hnd].
  destruct Hin as [[= -> ->] | Hin].
  - rewrite fold_refresh_other by (rewrite <- list_elem_of_In; exact Hj0).
    unfold refresh. destruct (refreshed_value r); [|reflexivity].
    apply lookup_insert_eq.
  - rewrite IH by assumption.
    destruct (refreshed_value r); [reflexivity|].
    unfold refresh. destruct (refreshed_value r0); [|reflexivity].
    apply lookup_insert_ne. intros ->. apply Hj0.
    rewrite list_elem_of_In. apply (in_map fst _ _ Hin).
Qed.


(** *** The command loop *)

Lemma read_all_frame (st : console) (w : W) :
  selected_joint (locals (read_all st w)) = selected_joint st /\
  step_size (locals (read_all st w)) = step_size st.
Proof.
  unfold read_all, bind, print.
  assert (H : forall js st w,
    selected_joint (locals (for_each js read_position st w))
    = selected_joint st /\
    step_size (locals (for_each js read_position st w)) = step_size st).
  { clear. induction js as [|j js IH]; intros st w; [easy|].
    cbn [for_each]. unfold bind. rewrite read_position_eq.
    destruct (motor_bus_read "Present_Position" j w) as [r w'].
    assert (Hr : selected_joint (refresh j r st) = selected_joint st /\
                 step_size (refresh j r st) = step_size st).
    { unfold refresh. now destruct (refreshed_value r). }
    specialize (IH (refresh j r st) w').
    destruct r as [?|[|]]; cbv beta iota; [| |easy];
      destruct (for_each js read_position _ w'); cbn in *;
      intuition congruence. }
  specialize (H joint_names st w).
  destruct (for_each joint_names read_position st w). exact H.
Qed.

Lemma command_valid (cmd : string) (st : console) (w : W) :
  valid st -> valid (locals (command cmd st w)).
Proof.
  intros [Hsel Hstep]. unfold command.
  destruct (Py.startswith cmd "j").
  { rewrite select_joint_eq.
    destruct (Py.split cmd !! 1%nat) as [a|]; [|now split].
    destruct (Py.int a) as [n|]; [|now split].
    destruct ((1 <=? n) && (n <=? 6))%Z eqn:Hn; [|now split].
    split; [|exact Hstep]. cbn.
    destruct (in_range_cases n Hn) as [->|[->|[->|[->|[->| ->]]]]];
      cbn; tauto. }
  destruct (String.eqb cmd "+").
  { destruct (move_frame Py.fadd st w) as (Hs & Ht & _).
    unfold valid. now rewrite Hs, Ht. }
  destruct (String.eqb cmd "-").
  { destruct (move_frame Py.fsub st w) as (Hs & Ht & _).
    unfold valid. now rewrite Hs, Ht. }
  destruct (Py.startswith cmd "s").
  { rewrite set_step_size_eq.
    destruct (Py.split cmd !! 1%nat) as [a|]; [|now split].
    destruct (Py.float_of_str a) as [x|]; [|now split].
    destruct (Py.fgt x f0_0) eqn:Hx; now split. }
  destruct (String.eqb cmd "r").
  { destruct (read_all_frame st w) as (Hs & Ht).
    unfold valid. now rewrite Hs, Ht. }
  now split.
Qed.

(** What holds of the local variables and of the events of every command
    holds of the whole loop. *)
Lemma loop_preserves (Q : console -> Prop) (P : list event -> Prop) :
  P [] ->
  (forall a b, P a -> P b -> P (a ++ b)%list) ->
  (forall line, P [Print line]) ->
  (forall s, P [Input s]) ->
  (forall cmd st w,
     Q st -> Q (locals (command cmd st w)) /\ P (events (command cmd st w))) ->
  forall stdin st w,
    Q st -> Q (locals (loop stdin st w)) /\ P (events (loop stdin st w)).
Proof.
  intros Hnil Happ Hprint Hinput Hcmd.
  induction stdin as [|key rest IH]; intros st w HQ.
  - cbn [loop]. unfold bind, get, print, getitem, input.
    destruct (joint_positions st !! selected_joint st) as [pos|];
      cbv beta iota zeta delta [ret raise res locals env events];
      (split; [exact HQ|]); repeat (apply Happ; auto).
  - cbn [loop]. unfold bind, get, print, getitem, input.
    destruct (joint_positions st !! selected_joint st) as [pos|];
      cbv beta iota zeta delta [ret raise res locals env events];
      [|split; [exact HQ|]; repeat (apply Happ; auto)].
    destruct key as [line|];
      [|split; [exact HQ|]; repeat (apply Happ; auto)].
    destruct (String.eqb (Py.lower (Py.strip line)) "q");
      [split; [exact HQ|]; repeat (apply Happ; auto)|].
    destruct (Hcmd (Py.lower (Py.strip line)) st w HQ) as [HQ1 HP1].
    destruct (command (Py.lower (Py.strip line)) st w) as [r1 l1 w1 ev1].
    cbn [res locals env events] in *.
    destruct r1 as [[]|e];
      [|split; [exact HQ1|]; repeat (apply Happ; auto)].
    destruct (IH l1 w1 HQ1) as [HQ2 HP2].
    destruct (loop rest l1 w1) as [r2 l2 w2 ev2].
    cbn [res locals env events] in *.
    split; [exact HQ2|]. repeat (apply Happ; auto).
Qed.


(** *** No command disconnects the robot *)

Lemma disconnects_app (a b : list event) :
  disconnects (a ++ b) = (disconnects a + disconnects b)%nat.
Proof. unfold disconnects. now rewrite List.filter_app, length_app. Qed.

Lemma read_all_no_disconnect (st : console) (w : W) :
  disconnects (events (read_all st w)) = 0%nat.
Proof.
  unfold read_all, bind, print.
  assert (H : forall js st w,
    disconnects (events (for_each js read_position st w)) = 0%nat).
  { clear. induction js as [|j js IH]; intros st w; [reflexivity|].
    cbn [for_each]. unfold bind. rewrite read_position_eq.
    destruct (motor_bus_read "Present_Position" j w) as [r w'].
    specialize (IH (refresh j r st) w').
    destruct r as [?|[|]]; cbv beta iota; [| |reflexivity];
      destruct (for_each js read_position _ w'); cbn in *; exact IH. }
  specialize (H joint_names st w).
  destruct (for_each joint_names read_position st w). exact H.
Qed.

Lemma move_no_disconnect (op : Py.float -> Py.float -> Py.float)
    (st : console) (w : W) :
  disconnects (events (move op st w)) = 0%nat.
Proof. run. lookup_selected st; repeat step; reflexivity. Qed.

Lemma command_no_disconnect (cmd : string) (st : console) (w : W) :
  disconnects (events (command cmd st w)) = 0%nat.
Proof.
  unfold command.
  destruct (Py.startswith cmd "j").
  { rewrite select_joint_eq.
    destruct (Py.split cmd !! 1%nat) as [a|]; [|reflexivity].
    destruct (Py.int a) as [n|]; [|reflexivity].
    now destruct ((1 <=? n) && (n <=? 6))%Z. }
  destruct (String.eqb cmd "+"); [apply move_no_disconnect|].
  destruct (String.eqb cmd "-"); [apply move_no_disconnect|].
  destruct (Py.startswith cmd "s").
  { rewrite set_step_size_eq.
    destruct (Py.split cmd !! 1%nat) as [a|]; [|reflexivity].
    destruct (Py.float_of_str a) as [x|]; [|reflexivity].
    now destruct (Py.fgt x f0_0). }
  destruct (String.eqb cmd "r"); [apply read_all_no_disconnect|].
  reflexivity.
Qed.

Lemma loop_no_disconnect (stdin : list keyboard) (st : console) (w : W) :
  disconnects (events (loop stdin st w)) = 0%nat.
Proof.
  apply (loop_preserves (fun _ => True) (fun evs => disconnects evs = 0%nat));
    try easy.
  - intros a b Ha Hb. now rewrite disconnects_app, Ha, Hb.
  - intros cmd st' w' _. split; [exact I | apply command_no_disconnect].
Qed.

Lemma guarded_loop_no_disconnect (stdin : list keyboard) (st : console)
    (w : W) :
  disconnects (events (guarded_loop stdin st w)) = 0%nat.
Proof.
  unfold guarded_loop, try_except_KeyboardInterrupt, print.
  pose proof (loop_no_disconnect stdin st w) as H.
  destruct (loop stdin st w) as [[[]|[cls msg|]] l1 w1 ev1];
    cbn [res locals env events] in *; try exact H.
  now rewrite disconnects_app, H.
Qed.


(** *** The claims *)

Ltac in_events := vm_compute; repeat (first [left; reflexivity | right]).

(** C1: with cached position [P] for the selected joint and step size [S],
    the [+] command issues exactly one write, of ("Goal_Position", P + S)
    for the selected joint, and the [-] command exactly one, of
    ("Goal_Position", P - S).  In the scenario (cache 100.0 for shoulder_pan
    and 0.0 for the others, shoulder_pan selected, step size 300.0, a
    read-back of 395.0) [+] writes 400.0 to shoulder_pan and the cache then
    holds 395.0 for shoulder_pan, the other entries as before. *)
Theorem C1_move_writes_goal_position (st : console) (w : W) (P : Py.float) :
  joint_positions st !! selected_joint st = Some P ->
  writes (events (command "+" st w))
  = [("Goal_Position", Py.fadd P (step_size st), selected_joint st)] /\
  writes (events (command "-" st w))
  = [("Goal_Position", Py.fsub P (step_size st), selected_joint st)] /\
  writes (events (command "+" Sim.console0 Sim.reads_395))
  = [("Goal_Position", Py.float_of_Z 400, "shoulder_pan")] /\
  In (Read "Present_Position" "shoulder_pan"
        (Ok (Number (Py.float_of_Z 395))))
     (events (command "+" Sim.console0 Sim.reads_395)) /\
  joint_positions (locals (command "+" Sim.console0 Sim.reads_395))
  = <["shoulder_pan" := Py.float_of_Z 395]> Sim.seeded.
Proof.
  intros HP. rewrite command_plus, command_minus.
  split; [now apply move_writes|]. split; [now apply move_writes|].
  split; [vm_compute; reflexivity|]. split; [in_events|].
  vm_compute. reflexivity.
Qed.

(** C3: when a [+] or [-] command's write succeeds and its read-back
    returns a number, or an array of size one, of value [V], the cache entry
    of the selected joint afterwards holds exactly [V]. *)
Theorem C3_move_round_trip (cmd : string) (st : console) (w : W)
    (target V : Py.float) (pos : reading) :
  cmd = "+" \/ cmd = "-" ->
  In (Write "Goal_Position" target (selected_joint st) (Ok tt))
     (events (command cmd st w)) ->
  In (Read "Present_Position" (selected_joint st) (Ok pos))
     (events (command cmd st w)) ->
  scalar_of pos = Some V ->
  res (command cmd st w) = Ok tt /\
  joint_positions (locals (command cmd st w)) !! selected_joint st = Some V.
Proof.
  intros [-> | ->] _ Hread Hpos;
    [rewrite command_plus in * | rewrite command_minus in *];
    now apply (move_round_trip _ st w pos V).
Qed.

(** C10: a [+] or [-] command, however it ends (write error, read-back
    error, unusable read result, interrupt), changes nothing of the console
    state but the cache entry of the selected joint: the selected joint, the
    step size and the cache without that entry are as before. *)
Theorem C10_move_frame (st : console) (w : W) :
  (selected_joint (locals (command "+" st w)) = selected_joint st /\
   step_size (locals (command "+" st w)) = step_size st /\
   delete (selected_joint st) (joint_positions (locals (command "+" st w)))
   = delete (selected_joint st) (joint_positions st)) /\
  (selected_joint (locals (command "-" st w)) = selected_joint st /\
   step_size (locals (command "-" st w)) = step_size st /\
   delete (selected_joint st) (joint_positions (locals (command "-" st w)))
   = delete (selected_joint st) (joint_positions st)).
Proof.
  rewrite command_plus, command_minus. split; apply move_frame.
Qed.

(** C5: a command that begins with [j] and whose argument reads as the
    integer [N]: for 1 <= N <= 6 it selects the Nth joint of the fixed
    order and changes nothing else; for [N] out of that range it prints
    "Invalid joint number. Use 1-6" and leaves the state as it was.  An
    argument that is not an integer, or none, gives a message ("Invalid
    joint number format", "Usage: j NUMBER") and leaves the state as it
    was.  [j 1] ... [j 6] select the six joints in order, [j 9] is
    rejected. *)
Theorem C5_select_joint (cmd : string) (st : console) (w : W) :
  Py.startswith cmd "j" = true ->
  (forall a N, Py.split cmd !! 1%nat = Some a -> Py.int a = Some N ->
     (1 <= N <= 6)%Z ->
     exists joint,
       joint_names !! Z.to_nat (N - 1) = Some joint /\
       command cmd st w
       = Outcome (Ok tt) (Console (joint_positions st) joint (step_size st))
           w [Print [Text "Selected joint: "; Text joint]]) /\
  (forall a N, Py.split cmd !! 1%nat = Some a -> Py.int a = Some N ->
     ~ (1 <= N <= 6)%Z ->
     command cmd st w
     = Outcome (Ok tt) st w
         [Print [Text "Invalid joint number. Use 1-"; Int 6]]) /\
  (forall a, Py.split cmd !! 1%nat = Some a -> Py.int a = None ->
     command cmd st w
     = Outcome (Ok tt) st w [Print [Text "Invalid joint number format"]]) /\
  (Py.split cmd !! 1%nat = None ->
     command cmd st w
     = Outcome (Ok tt) st w [Print [Text "Usage: j NUMBER"]]) /\
  map (fun c => selected_joint (locals (command c st w)))
    ["j 1"; "j 2"; "j 3"; "j 4"; "j 5"; "j 6"] = joint_names /\
  command "j 9" st w
  = Outcome (Ok tt) st w [Print [Text "Invalid joint number. Use 1-"; Int 6]].
Proof.
  intros Hj. rewrite (command_j cmd st w Hj), select_joint_eq.
  split; [|split; [|split; [|split; [|split]]]].
  - intros a N -> -> HN.
    assert (Hb : ((1 <=? N) && (N <=? 6))%Z = true).
    { apply andb_true_intro. split; apply Z.leb_le; lia. }
    rewrite Hb. eexists. split; [now apply nth_joint_names | reflexivity].
  - intros a N -> -> HN.
    assert (Hb : ((1 <=? N) && (N <=? 6))%Z = false).
    { apply andb_false_iff.
      destruct (Z.leb_spec 1 N), (Z.leb_spec N 6); auto; lia. }
    now rewrite Hb.
  - now intros a -> ->.
  - now intros ->.
  - reflexivity.
  - reflexivity.
Qed.

(** C6: a command that begins with [s] and whose argument reads as the
    float [F]: for [F > 0] it sets the step size to [F] and changes nothing
    else; for [F <= 0] (and for a NaN) it prints "Step size must be
    positive" and leaves the state as it was.  An argument that is not a
    number, or none, gives a message ("Invalid step size format", "Usage: s
    NUMBER") and leaves the state as it was.  [s -5] is rejected with "Step
    size must be positive". *)
Theorem C6_set_step_size (cmd : string) (st : console) (w : W) :
  Py.startswith cmd "s" = true ->
  (forall a F, Py.split cmd !! 1%nat = Some a ->
     Py.float_of_str a = Some F -> Py.fgt F f0_0 = true ->
     command cmd st w
     = Outcome (Ok tt) (Console (joint_positions st) (selected_joint st) F)
         w [Print [Text "Step size set to "; Float F]]) /\
  (forall a F, Py.split cmd !! 1%nat = Some a ->
     Py.float_of_str a = Some F -> SFleb F f0_0 = true \/ F = S754_nan ->
     command cmd st w
     = Outcome (Ok tt) st w [Print [Text "Step size must be positive"]]) /\
  (forall a, Py.split cmd !! 1%nat = Some a -> Py.float_of_str a = None ->
     command cmd st w
     = Outcome (Ok tt) st w [Print [Text "Invalid step size format"]]) /\
  (Py.split cmd !! 1%nat = None ->
     command cmd st w
     = Outcome (Ok tt) st w [Print [Text "Usage: s NUMBER"]]) /\
  command "s -5" st w
  = Outcome (Ok tt) st w [Print [Text "Step size must be positive"]].
Proof.
  intros Hs. rewrite (command_s cmd st w Hs), set_step_size_eq.
  split; [|split; [|split; [|split]]].
  - intros a F -> -> HF. now rewrite HF.
  - intros a F -> -> HF. now rewrite (not_positive F HF).
  - now intros a -> ->.
  - now intros ->.
  - reflexivity.
Qed.

(** C8, as amended: a command text (the input line, trimmed and in lower
    case) that is none of [q], [+], [-], [r] and begins with neither [j]
    nor [s] prints "Unknown command" and leaves the state as it was. *)
Theorem C8_unknown_command (line : string) (st : console) (w : W) :
  Py.lower (Py.strip line) <> "q" ->
  Py.lower (Py.strip line) <> "+" ->
  Py.lower (Py.strip line) <> "-" ->
  Py.lower (Py.strip line) <> "r" ->
  Py.startswith (Py.lower (Py.strip line)) "j" = false ->
  Py.startswith (Py.lower (Py.strip line)) "s" = false ->
  command (Py.lower (Py.strip line)) st w
  = Outcome (Ok tt) st w [Print [Text "Unknown command"]].
Proof.
  intros _ Hplus Hminus Hr Hj Hs. unfold command. rewrite Hj, Hs.
  apply String.eqb_neq in Hplus, Hminus, Hr.
  now rewrite Hplus, Hminus, Hr.
Qed.


(** C4: every command of the console loop, and so the whole loop, keeps
    the invariant of the console state (the selected joint is one of the six
    joints, the step size is greater than 0), which holds when the loop is
    entered; a joint number out of range and a step size that is not
    positive are rejected with a message and leave the state as it was. *)
Theorem C4_invariant (cmd : string) (st : console) (w : W) :
  valid st ->
  valid (locals (command cmd st w)) /\
  (forall stdin, valid (locals (loop stdin st w))) /\
  (forall d, valid (Console d (nth 0 joint_names "") f300_0)) /\
  (forall a N, Py.startswith cmd "j" = true ->
     Py.split cmd !! 1%nat = Some a -> Py.int a = Some N ->
     ~ (1 <= N <= 6)%Z ->
     locals (command cmd st w) = st /\
     events (command cmd st w)
     = [Print [Text "Invalid joint number. Use 1-"; Int 6]]) /\
  (forall a F, Py.startswith cmd "s" = true ->
     Py.split cmd !! 1%nat = Some a -> Py.float_of_str a = Some F ->
     Py.fgt F f0_0 = false ->
     locals (command cmd st w) = st /\
     events (command cmd st w) = [Print [Text "Step size must be positive"]]).
Proof.
  intros Hst. split; [now apply command_valid|]. split; [|split; [|split]].
  - intros stdin.
    apply (loop_preserves valid (fun _ => True)); try easy.
    intros cmd' st' w' H'. split; [now apply command_valid | exact I].
  - intros d. split; [now left | reflexivity].
  - intros a N Hj Ha HN Hrange.
    rewrite (command_j cmd st w Hj), select_joint_eq, Ha, HN.
    assert (Hb : ((1 <=? N) && (N <=? 6))%Z = false).
    { apply andb_false_iff.
      destruct (Z.leb_spec 1 N), (Z.leb_spec N 6); auto; lia. }
    now rewrite Hb.
  - intros a F Hs Ha HF Hgt.
    now rewrite (command_s cmd st w Hs), set_step_size_eq, Ha, HF, Hgt.
Qed.

(** C2, as amended: in an execution of the [r] command, a joint whose read
    fails keeps the cache entry it had (it is not reset to 0.0); every joint
    is still read, once and in the fixed order, and a joint whose read
    succeeds gets the value read; the selected joint and the step size stay;
    no [Exception] leaves the command, so the loop goes on (only an
    interrupt from the keyboard ends it early). *)
Theorem C2_read_all_keeps_failed_entries (st : console) (w : W) :
  (res (command "r" st w) = Ok tt \/
   res (command "r" st w) = Raise KeyboardInterrupt /\
   exists j, In (Read "Present_Position" j (Raise KeyboardInterrupt))
               (events (command "r" st w))) /\
  (res (command "r" st w) = Ok tt ->
   reads (events (command "r" st w))
   = map (pair "Present_Position") joint_names) /\
  selected_joint (locals (command "r" st w)) = selected_joint st /\
  step_size (locals (command "r" st w)) = step_size st /\
  (forall j cls msg,
     In (Read "Present_Position" j (Raise (Exception cls msg)))
        (events (command "r" st w)) ->
     joint_positions (locals (command "r" st w)) !! j
     = joint_positions st !! j) /\
  (forall j r,
     In (Read "Present_Position" j r) (events (command "r" st w)) ->
     joint_positions (locals (command "r" st w)) !! j
     = match refreshed_value r with
       | Some v => Some v
       | None => joint_positions st !! j
       end).
Proof.
  rewrite command_r.
  destruct (read_all_frame st w) as [Hsel Hstep].
  revert Hsel Hstep. unfold read_all, bind, print.
  destruct (for_each_reads read_position refresh read_position_eq
              (fun _ _ => eq_refl) joint_names st w)
    as (Hres & [rest Hpre] & Hreads & Hloc & Hin).
  destruct (for_each joint_names read_position st w) as [r l1 w1 ev1].
  cbn [res locals env events app] in *. intros Hsel Hstep.
  assert (Hnd : NoDup (map fst (outcomes ev1))).
  { pose proof joint_names_NoDup as H. rewrite Hpre in H.
    now apply NoDup_app in H as [H _]. }
  assert (Hall : forall j r0,
    In (Read "Present_Position" j r0) ev1 ->
    joint_positions l1 !! j
    = match refreshed_value r0 with
      | Some v => Some v
      | None => joint_positions st !! j
      end).
  { intros j r0 H. rewrite Hloc.
    apply fold_refresh_lookup; [exact Hnd | now apply Hin]. }
  split.
  { destruct Hres as [[-> _] | [-> [j Hj]]]; [now left|].
    right. split; [reflexivity|]. exists j. now right. }
  split.
  { intros ->. destruct Hres as [[_ Hjs] | [[=] _]].
    cbn [reads flat_map app]. fold (reads ev1). now rewrite Hreads, Hjs. }
  split; [exact Hsel|]. split; [exact Hstep|]. split.
  - intros j cls msg [H | H]; [discriminate H|]. now rewrite (Hall j _ H).
  - intros j r0 [H | H]; [discriminate H|]. now apply Hall.
Qed.

(** C7: the start-up reads every joint in the fixed order; a joint whose
    read raises an exception has the error logged and gets the cache entry
    0.0, and the start-up goes on with the next joint: the joint that
    follows it in the list is read as well.  The start-up never ends with
    the exception of a failed read: it ends early only with the
    [KeyboardInterrupt] that a call of the robot raised, or with the
    exception that connecting raised; when neither happened it completes,
    having read all six joints. *)
Theorem C7_startup_read_failures (w : W) :
  (res (startup ∅ w) = Ok tt \/
   (res (startup ∅ w) = Raise KeyboardInterrupt /\
    exists j, In (Read "Present_Position" j (Raise KeyboardInterrupt))
                (events (startup ∅ w))) \/
   exists e, res (startup ∅ w) = Raise e /\
             last (events (startup ∅ w)) = Some (Connect (Raise e))) /\
  (res (startup ∅ w) = Ok tt ->
   reads (events (startup ∅ w)) = map (pair "Present_Position") joint_names) /\
  (forall j cls msg,
     In (Read "Present_Position" j (Raise (Exception cls msg)))
        (events (startup ∅ w)) ->
     locals (startup ∅ w) !! j = Some f0_0 /\
     In (Print [Text "Error reading "; Text j; Text ": "; Text msg])
        (events (startup ∅ w))) /\
  (forall j r,
     In (Read "Present_Position" j r) (events (startup ∅ w)) ->
     r <> Raise KeyboardInterrupt ->
     locals (startup ∅ w) !! j = Some (initial_value r)) /\
  (forall before j next after cls msg,
     joint_names = (before ++ j :: next :: after)%list ->
     In (Read "Present_Position" j (Raise (Exception cls msg)))
        (events (startup ∅ w)) ->
     exists r, In (Read "Present_Position" next r) (events (startup ∅ w))) /\
  ((forall j, ~ In (Read "Present_Position" j (Raise KeyboardInterrupt))
                  (events (startup ∅ w))) ->
   (forall e, ~ In (Connect (Raise e)) (events (startup ∅ w))) ->
   res (startup ∅ w) = Ok tt /\
   reads (events (startup ∅ w)) = map (pair "Present_Position") joint_names).
Proof.
  assert (Hloop : forall w0 pre,
    (forall j r, ~ In (Read "Present_Position" j r) pre) ->
    reads pre = [] ->
    match for_each joint_names read_initial_position ∅ w0 with
    | Outcome r l1 w1 ev1 =>
        (r = Ok tt \/
         r = Raise KeyboardInterrupt /\
         exists j, In (Read "Present_Position" j (Raise KeyboardInterrupt))
                     (pre ++ ev1)) /\
        (r = Ok tt ->
         reads (pre ++ ev1) = map (pair "Present_Position") joint_names) /\
        (forall j cls msg,
           In (Read "Present_Position" j (Raise (Exception cls msg)))
              (pre ++ ev1) ->
           l1 !! j = Some f0_0 /\
           In (Print [Text "Error reading "; Text j; Text ": "; Text msg])
              (pre ++ ev1)) /\
        (forall j r0,
           In (Read "Present_Position" j r0) (pre ++ ev1) ->
           r0 <> Raise KeyboardInterrupt ->
           l1 !! j = Some (initial_value r0)) /\
        (forall before j next after cls msg,
           joint_names = (before ++ j :: next :: after)%list ->
           In (Read "Present_Position" j (Raise (Exception cls msg)))
              (pre ++ ev1) ->
           exists r', In (Read "Present_Position" next r') (pre ++ ev1))
    end).
  { intros w0 pre Hpre Hreads0.
    destruct (for_each_reads read_initial_position store_initial
                read_initial_position_eq (fun _ _ => eq_refl) joint_names
                ∅ w0)
      as (Hres & [rest Hjs] & Hreads & Hloc & Hin).
    pose proof (for_each_continues read_initial_position store_initial
                  read_initial_position_eq joint_names ∅ w0
                  joint_names_NoDup) as Hnext.
    destruct (for_each joint_names read_initial_position ∅ w0)
      as [r l1 w1 ev1].
    cbn [res locals env events] in *.
    assert (Hnd : NoDup (map fst (outcomes ev1))).
    { pose proof joint_names_NoDup as H. rewrite Hjs in H.
      now apply NoDup_app in H as [H _]. }
    assert (Hall : forall j r0,
      In (Read "Present_Position" j r0) (pre ++ ev1) ->
      r0 <> Raise KeyboardInterrupt ->
      l1 !! j = Some (initial_value r0) /\
      In (Print (read_report j r0)) (pre ++ ev1)).
    { intros j r0 H Hr0. apply in_app_or in H as [H | H];
        [now apply Hpre in H|].
      destruct (Hin j r0 H) as [H1 H2]. split.
      - rewrite Hloc. now apply fold_initial_lookup.
      - apply in_or_app. right. now apply H2. }
    split.
    { destruct Hres as [[-> _] | [-> [j Hj]]]; [now left|].
      right. split; [reflexivity|]. exists j. apply in_or_app. now right. }
    split.
    { intros ->. destruct Hres as [[_ Hall'] | [[=] _]].
      unfold reads in *. rewrite flat_map_app, Hreads0, Hreads, Hall'.
      reflexivity. }
    split; [intros j cls msg H; now apply (Hall j _ H)|].
    split; [intros j r0 H Hr0; now apply (Hall j _ H Hr0)|].
    intros before j next after cls msg Hsplit H.
    apply in_app_or in H as [H | H]; [now apply Hpre in H|].
    destruct (Hnext before j next after _ Hsplit H) as [r' Hr'];
      [discriminate|].
    exists r'. apply in_or_app. now right. }
  assert (Hmain :
    (res (startup ∅ w) = Ok tt \/
     (res (startup ∅ w) = Raise KeyboardInterrupt /\
      exists j, In (Read "Present_Position" j (Raise KeyboardInterrupt))
                  (events (startup ∅ w))) \/
     exists e, res (startup ∅ w) = Raise e /\
               last (events (startup ∅ w)) = Some (Connect (Raise e))) /\
    (res (startup ∅ w) = Ok tt ->
     reads (events (startup ∅ w))
     = map (pair "Present_Position") joint_names) /\
    (forall j cls msg,
       In (Read "Present_Position" j (Raise (Exception cls msg)))
          (events (startup ∅ w)) ->
       locals (startup ∅ w) !! j = Some f0_0 /\
       In (Print [Text "Error reading "; Text j; Text ": "; Text msg])
          (events (startup ∅ w))) /\
    (forall j r,
       In (Read "Present_Position" j r) (events (startup ∅ w)) ->
       r <> Raise KeyboardInterrupt ->
       locals (startup ∅ w) !! j = Some (initial_value r)) /\
    (forall before j next after cls msg,
       joint_names = (before ++ j :: next :: after)%list ->
       In (Read "Present_Position" j (Raise (Exception cls msg)))
          (events (startup ∅ w)) ->
       exists r, In (Read "Present_Position" next r) (events (startup ∅ w)))).
  { unfold startup, bind, print, is_connected, connect, call, ret.
    destruct (robot_is_connected w); cbn [negb].
    - specialize (Hloop w
        [Print [Text "Creating robot object..."];
         Print [Text "Connecting to robot..."];
         Print [Text "Robot connected successfully!"];
         Print [Text (nl ++ "Reading initial positions...")]]).
      destruct (for_each joint_names read_initial_position ∅ w)
        as [r l1 w1 ev1].
      cbn [res locals env events app] in *.
      destruct Hloop as (H1 & H2 & H3 & H4 & H5);
        [intros j r0 H; cbn in H; intuition discriminate | reflexivity |].
      split; [tauto|]. split; [exact H2|]. split; [exact H3|].
      split; [exact H4 | exact H5].
    - destruct (robot_connect w) as [[[]|e] w0].
      + specialize (Hloop w0
          [Print [Text "Creating robot object..."];
           Print [Text "Connecting to robot..."]; Connect (Ok tt);
           Print [Text "Robot connected successfully!"];
           Print [Text (nl ++ "Reading initial positions...")]]).
        destruct (for_each joint_names read_initial_position ∅ w0)
          as [r l1 w1 ev1].
        cbn [res locals env events app] in *.
        destruct Hloop as (H1 & H2 & H3 & H4 & H5);
          [intros j r0 H; cbn in H; intuition discriminate | reflexivity |].
        split; [tauto|]. split; [exact H2|]. split; [exact H3|].
        split; [exact H4 | exact H5].
      + cbn [res locals env events app]. split.
        { right. right. exists e. split; reflexivity. }
        split; [discriminate|].
        repeat split; intros; cbn in *; intuition discriminate. }
  destruct Hmain as (H1 & H2 & H3 & H4 & H5).
  split; [exact H1|]. split; [exact H2|]. split; [exact H3|].
  split; [exact H4|]. split; [exact H5|].
  intros Hki Hconn.
  destruct H1 as [Hok | [[_ [j Hj]] | [e [_ He]]]].
  - split; [exact Hok | now apply H2].
  - now apply Hki in Hj.
  - exfalso. apply (Hconn e).
    destruct (events (startup ∅ w)) as [|e0 evs] using rev_ind;
      [discriminate He|].
    rewrite last_snoc in He. injection He as ->.
    apply in_or_app. right. now left.
Qed.

(** C9: however the command loop is left (by [q], by an interrupt from
    the keyboard, by an exception that nothing in the loop catches), the
    [finally] block then calls [robot.disconnect()] once if the robot is
    connected at that moment and not at all otherwise; nothing disconnects
    before.  On the scripted robot, leaving by [q], by Ctrl-C and by the end
    of the input each disconnect once. *)
Theorem C9_disconnect_on_every_exit (stdin : list keyboard) (st : console)
    (w : W) :
  disconnects (events (guarded_loop stdin st w)) = 0%nat /\
  (exists tail,
     events (session stdin st w)
     = (events (guarded_loop stdin st w) ++ tail)%list /\
     tail
     = if robot_is_connected (env (guarded_loop stdin st w)) then
         Print [Text "Disconnecting robot..."]
         :: Disconnect
              (fst (robot_disconnect (env (guarded_loop stdin st w))))
         :: match fst (robot_disconnect (env (guarded_loop stdin st w))) with
            | Ok _ => [Print [Text "Robot disconnected"]]
            | Raise _ => []
            end
       else []) /\
  disconnects (events (session stdin st w))
  = (if robot_is_connected (env (guarded_loop stdin st w)) then 1 else 0)%nat /\
  map (fun keys => res (guarded_loop keys Sim.console0 Sim.reads_395))
    [[Line "q"]; [CtrlC]; []]
  = [Ok tt; Ok tt; Raise (Exception "EOFError" "EOF when reading a line")] /\
  map (fun keys => disconnects (events (session keys Sim.console0 Sim.reads_395)))
    [[Line "q"]; [CtrlC]; []]
  = [1; 1; 1]%nat.
Proof.
  pose proof (guarded_loop_no_disconnect stdin st w) as Hquiet.
  unfold session, try_finally, release, bind, is_connected, print,
    disconnect, call, ret.
  destruct (guarded_loop stdin st w) as [r l1 w1 ev1].
  cbn [res locals env events] in *.
  split; [exact Hquiet|].
  destruct (robot_is_connected w1).
  - destruct (robot_disconnect w1) as [[[]|e] w2];
      cbn [res locals env events fst app].
    + split; [eexists; split; reflexivity|].
      split; [now rewrite disconnects_app, Hquiet|].
      split; vm_compute; reflexivity.
    + split; [eexists; split; reflexivity|].
      split; [now rewrite disconnects_app, Hquiet|].
      split; vm_compute; reflexivity.
  - cbn [res locals env events fst app].
    split; [exists []; split; reflexivity|].
    split; [now rewrite disconnects_app, Hquiet|].
    split; vm_compute; reflexivity.
Qed.

(** *** More on the commands *)

Tactic Notation "pick_event" integer(n) :=
  solve [eexists; split; [do n right; left; reflexivity | reflexivity]].

(** X1: the calls of a [+] or [-] command ([move Py.fadd], [move Py.fsub])
    follow one protocol: nothing when the selected joint has no cache entry;
    otherwise one write of the goal position, then, only if the write
    returned, one sleep of 0.5, then, only if the sleep returned, one read of
    the present position of the same joint. *)
Theorem move_protocol (op : Py.float -> Py.float -> Py.float) (st : console)
    (w : W) :
  match joint_positions st !! selected_joint st with
  | None => calls (events (move op st w)) = []
  | Some P =>
      (exists e,
         calls (events (move op st w))
         = [Write "Goal_Position" (op P (step_size st)) (selected_joint st)
              (Raise e)]) \/
      (exists e,
         calls (events (move op st w))
         = [Write "Goal_Position" (op P (step_size st)) (selected_joint st)
              (Ok tt);
            Sleep f0_5 (Raise e)]) \/
      (exists r,
         calls (events (move op st w))
         = [Write "Goal_Position" (op P (step_size st)) (selected_joint st)
              (Ok tt);
            Sleep f0_5 (Ok tt);
            Read "Present_Position" (selected_joint st) r])
  end.
Proof.
  run. lookup_selected st; [|reflexivity].
  repeat step; cbn; eauto.
Qed.

(** X2: what a [+] or [-] command leaves in the console state is decided by
    its read-back: with a read-back of outcome [r] the state is the old one
    refreshed by [r] (a number or a one-element array is stored, an empty
    array stores 0.0, a failed or unusable read stores nothing); without a
    read-back the state is the old one. *)
Theorem move_stores_read_back (op : Py.float -> Py.float -> Py.float)
    (st : console) (w : W) :
  (forall r,
     In (Read "Present_Position" (selected_joint st) r)
        (events (move op st w)) ->
     locals (move op st w) = refresh (selected_joint st) r st) /\
  (reads (events (move op st w)) = [] -> locals (move op st w) = st).
Proof.
  run. lookup_selected st; repeat step; (split; [intros r Hin | intros Hr]);
    cbn in Hin || cbn in Hr; try discriminate Hr; try reflexivity;
    repeat (destruct Hin as [Hin|Hin]; try discriminate Hin);
    try contradiction; injection Hin as <-; reflexivity.
Qed.

(** X3: when a call of a [+] or [-] command raises an [Exception], the
    command prints "Error: " and the exception's text as its last line,
    returns normally and leaves the console state as it was. *)
Theorem move_reports_bus_errors (op : Py.float -> Py.float -> Py.float)
    (st : console) (w : W) (e : event) (class text : string) :
  In e (events (move op st w)) ->
  raised e = Some (Exception class text) ->
  res (move op st w) = Ok tt /\
  locals (move op st w) = st /\
  last (events (move op st w)) = Some (Print [Text "Error: "; Text text]).
Proof.
  run. lookup_selected st; repeat step; cbn [In]; intros Hin Hraised;
    repeat (destruct Hin as [<-|Hin];
            [cbn in Hraised; try discriminate Hraised|]);
    try contradiction; injection Hraised as <- <-; repeat split.
Qed.

Lemma command_result (cmd : string) (st : console) (w : W) :
  res (command cmd st w) = Ok tt \/
  res (command cmd st w) = Raise KeyboardInterrupt.
Proof.
  assert (Hmove : forall op,
    res (move op st w) = Ok tt \/
    res (move op st w) = Raise KeyboardInterrupt).
  { intros op. run. lookup_selected st; repeat step; auto. }
  unfold command.
  destruct (Py.startswith cmd "j").
  { rewrite select_joint_eq.
    destruct (Py.split cmd !! 1%nat) as [a|]; [|now left].
    destruct (Py.int a) as [n|]; [|now left].
    destruct ((1 <=? n) && (n <=? 6))%Z; now left. }
  destruct (String.eqb cmd "+"); [apply Hmove|].
  destruct (String.eqb cmd "-"); [apply Hmove|].
  destruct (Py.startswith cmd "s").
  { rewrite set_step_size_eq.
    destruct (Py.split cmd !! 1%nat) as [a|]; [|now left].
    destruct (Py.float_of_str a) as [x|]; [|now left].
    destruct (Py.fgt x f0_0); now left. }
  destruct (String.eqb cmd "r"); [|now left].
  unfold read_all, bind, print.
  destruct (for_each_reads read_position refresh read_position_eq
              (fun _ _ => eq_refl) joint_names st w) as (Hres & _).
  destruct (for_each joint_names read_position st w) as [r l1 w1 ev1].
  cbn [res locals env events] in *.
  destruct Hres as [[-> _] | [-> _]]; auto.
Qed.

(** X4: no command lets an [Exception] out: a command returns normally, or
    it is cut short by a [KeyboardInterrupt] that one of its calls raised. *)
Theorem command_catches_exceptions (cmd : string) (st : console) (w : W) :
  res (command cmd st w) = Ok tt \/
  res (command cmd st w) = Raise KeyboardInterrupt /\
  exists e, In e (events (command cmd st w)) /\
            raised e = Some KeyboardInterrupt.
Proof.
  assert (Hmove : forall op,
    res (move op st w) = Ok tt \/
    res (move op st w) = Raise KeyboardInterrupt /\
    exists e, In e (events (move op st w)) /\
              raised e = Some KeyboardInterrupt).
  { intros op. run. lookup_selected st; repeat step; auto;
      right; (split; [reflexivity|]);
      first [pick_event 0 | pick_event 1 | pick_event 2
            | pick_event 3 | pick_event 4 | pick_event 5]. }
  unfold command.
  destruct (Py.startswith cmd "j").
  { rewrite select_joint_eq.
    destruct (Py.split cmd !! 1%nat) as [a|]; [|now left].
    destruct (Py.int a) as [n|]; [|now left].
    destruct ((1 <=? n) && (n <=? 6))%Z; now left. }
  destruct (String.eqb cmd "+"); [apply Hmove|].
  destruct (String.eqb cmd "-"); [apply Hmove|].
  destruct (Py.startswith cmd "s").
  { rewrite set_step_size_eq.
    destruct (Py.split cmd !! 1%nat) as [a|]; [|now left].
    destruct (Py.float_of_str a) as [x|]; [|now left].
    destruct (Py.fgt x f0_0); now left. }
  destruct (String.eqb cmd "r"); [|now left].
  unfold read_all, bind, print.
  destruct (for_each_reads read_position refresh read_position_eq
              (fun _ _ => eq_refl) joint_names st w) as (Hres & _).
  destruct (for_each joint_names read_position st w) as [r l1 w1 ev1].
  cbn [res locals env events] in *.
  destruct Hres as [[-> _] | [-> [j Hj]]]; [now left|].
  right. split; [reflexivity|].
  exists (Read "Present_Position" j (Raise KeyboardInterrupt)).
  split; [now right | reflexivity].
Qed.

(** X5: only [+], [-] and [r] reach the robot: every other command text
    returns normally, prints one line, makes no call, leaves the environment
    and the cache as they were. *)
Theorem command_without_bus (cmd : string) (st : console) (w : W) :
  cmd <> "+" -> cmd <> "-" -> cmd <> "r" ->
  res (command cmd st w) = Ok tt /\
  env (command cmd st w) = w /\
  joint_positions (locals (command cmd st w)) = joint_positions st /\
  exists line, events (command cmd st w) = [Print line].
Proof.
  intros Hplus Hminus Hr. unfold command.
  apply String.eqb_neq in Hplus, Hminus, Hr. rewrite Hplus, Hminus, Hr.
  destruct (Py.startswith cmd "j").
  { rewrite select_joint_eq.
    destruct (Py.split cmd !! 1%nat) as [a|]; [|cbn; eauto].
    destruct (Py.int a) as [n|]; [|cbn; eauto].
    destruct ((1 <=? n) && (n <=? 6))%Z; cbn; eauto. }
  destruct (Py.startswith cmd "s"); [|cbn; eauto].
  rewrite set_step_size_eq.
  destruct (Py.split cmd !! 1%nat) as [a|]; [|cbn; eauto].
  destruct (Py.float_of_str a) as [x|]; [|cbn; eauto].
  destruct (Py.fgt x f0_0); cbn; eauto.
Qed.

(** *** What the loops over the joints do *)

Ltac once_prints :=
  repeat (apply List.Forall_cons; [exact I|]); try apply List.Forall_nil.

Section ReadEvents.

Context {L : Type} (body : string -> M (W:=W) L unit).
Context (upd : string -> result reading -> L -> L).
Hypothesis body_eq : forall j l w,
  body j l w =
  match motor_bus_read "Present_Position" j w with
  | (Raise KeyboardInterrupt, w') =>
      Outcome (Raise KeyboardInterrupt) l w'
        [Read "Present_Position" j (Raise KeyboardInterrupt)]
  | (r, w') =>
      Outcome (Ok tt) (upd j r l) w'
        [Read "Present_Position" j r; Print (read_report j r)]
  end.

Lemma for_each_only_reads (all js : list string) (l : L) (w : W) :
  (forall j, In j js -> In j all) ->
  Forall (reading_of all) (events (for_each js body l w)).
Proof.
  revert l w. induction js as [|j0 js IH]; intros l w Hsub; [constructor|].
  cbn [for_each]. unfold bind. rewrite body_eq.
  destruct (motor_bus_read "Present_Position" j0 w) as [r0 w'].
  assert (Hj0 : In j0 all) by (apply Hsub; now left).
  assert (Hjs : forall j, In j js -> In j all) by (intros j H; apply Hsub; now right).
  destruct r0 as [a|[cls msg|]]; cbv beta iota.
  - specialize (IH (upd j0 (Ok a) l) w' Hjs).
    destruct (for_each js body _ w'). cbn [events] in *.
    apply List.Forall_cons; [now split|]. apply List.Forall_cons; [exact I|]. exact IH.
  - specialize (IH (upd j0 (Raise (Exception cls msg)) l) w' Hjs).
    destruct (for_each js body _ w'). cbn [events] in *.
    apply List.Forall_cons; [now split|]. apply List.Forall_cons; [exact I|]. exact IH.
  - apply List.Forall_cons; [now split | apply List.Forall_nil].
Qed.

End ReadEvents.

Lemma reading_of_on_joints (evs : list event) :
  Forall (reading_of joint_names) evs -> Forall on_joints evs.
Proof.
  induction 1 as [|e evs He _ IH]; constructor; [|exact IH].
  destruct e; cbn in *; tauto.
Qed.

Lemma reading_of_no_writes (js : list string) (evs : list event) :
  Forall (reading_of js) evs -> writes evs = [].
Proof.
  induction 1 as [|e evs He _ IH]; [reflexivity|].
  destruct e; cbn in *; try contradiction; exact IH.
Qed.

Lemma on_joints_quiet (evs : list event) :
  Forall on_joints evs -> connects evs = 0%nat /\ disconnects evs = 0%nat.
Proof.
  induction 1 as [|e evs He _ IH]; [now split|].
  destruct e; cbn in *; try contradiction; exact IH.
Qed.

Lemma read_all_only_reads (st : console) (w : W) :
  Forall (reading_of joint_names) (events (read_all st w)).
Proof.
  unfold read_all, bind, print.
  pose proof (for_each_only_reads read_position refresh read_position_eq
                joint_names joint_names st w (fun _ H => H)) as H.
  destruct (for_each joint_names read_position st w).
  cbn [events app] in *. constructor; [exact I | exact H].
Qed.

Lemma move_on_joints (op : Py.float -> Py.float -> Py.float) (st : console)
    (w : W) :
  In (selected_joint st) joint_names ->
  Forall on_joints (events (move op st w)).
Proof.
  intros Hsel. run. lookup_selected st; repeat step;
    repeat (apply List.Forall_cons; [cbn; auto|]); apply List.Forall_nil.
Qed.

Lemma command_on_joints (cmd : string) (st : console) (w : W) :
  valid st -> Forall on_joints (events (command cmd st w)).
Proof.
  intros [Hsel _]. unfold command.
  destruct (Py.startswith cmd "j").
  { rewrite select_joint_eq.
    destruct (Py.split cmd !! 1%nat) as [a|]; [|once_prints].
    destruct (Py.int a) as [n|]; [|once_prints].
    destruct ((1 <=? n) && (n <=? 6))%Z; once_prints. }
  destruct (String.eqb cmd "+"); [now apply move_on_joints|].
  destruct (String.eqb cmd "-"); [now apply move_on_joints|].
  destruct (Py.startswith cmd "s").
  { rewrite set_step_size_eq.
    destruct (Py.split cmd !! 1%nat) as [a|]; [|once_prints].
    destruct (Py.float_of_str a) as [x|]; [|once_prints].
    destruct (Py.fgt x f0_0); once_prints. }
  destruct (String.eqb cmd "r");
    [apply reading_of_on_joints, read_all_only_reads | once_prints].
Qed.

Lemma loop_on_joints (stdin : list keyboard) (st : console) (w : W) :
  valid st -> Forall on_joints (events (loop stdin st w)).
Proof.
  intros Hst.
  apply (loop_preserves valid (Forall on_joints)); try assumption.
  - constructor.
  - intros a b Ha Hb. apply Forall_app. now split.
  - intros line. once_prints.
  - intros s. once_prints.
  - intros cmd' st' w' H'.
    split; [now apply command_valid | now apply command_on_joints].
Qed.

Lemma guarded_loop_on_joints' (stdin : list keyboard) (st : console)
    (w : W) :
  valid st -> Forall on_joints (events (guarded_loop stdin st w)).
Proof.
  intros Hst. pose proof (loop_on_joints stdin st w Hst) as H.
  unfold guarded_loop, try_except_KeyboardInterrupt, print.
  destruct (loop stdin st w) as [[[]|[cls msg|]] l1 w1 ev1];
    cbn [events] in *; try exact H.
  apply Forall_app. split; [exact H | once_prints].
Qed.

(** X6: as long as the console state is valid, the command loop (with its
    [except KeyboardInterrupt] clause) touches the outside only by reading
    the register "Present_Position" or writing the register "Goal_Position"
    of one of the six joints, by sleeping 0.5, by printing and by prompting;
    it neither connects nor disconnects. *)
Theorem guarded_loop_on_joints (stdin : list keyboard) (st : console)
    (w : W) :
  valid st -> Forall on_joints (events (guarded_loop stdin st w)).
Proof.
  intros Hst. pose proof (loop_on_joints stdin st w Hst) as H.
  unfold guarded_loop, try_except_KeyboardInterrupt, print.
  destruct (loop stdin st w) as [[[]|[cls msg|]] l1 w1 ev1];
    cbn [events] in *; try exact H.
  apply Forall_app. split; [exact H | once_prints].
Qed.

(** X7: the arm is commanded by [+] and [-] alone: no other command text
    issues a write. *)
Theorem writes_only_on_moves (cmd : string) (st : console) (w : W) :
  cmd <> "+" -> cmd <> "-" -> writes (events (command cmd st w)) = [].
Proof.
  intros Hplus Hminus. unfold command.
  apply String.eqb_neq in Hplus, Hminus. rewrite Hplus, Hminus.
  destruct (Py.startswith cmd "j").
  { rewrite select_joint_eq.
    destruct (Py.split cmd !! 1%nat) as [a|]; [|reflexivity].
    destruct (Py.int a) as [n|]; [|reflexivity].
    now destruct ((1 <=? n) && (n <=? 6))%Z. }
  destruct (Py.startswith cmd "s").
  { rewrite set_step_size_eq.
    destruct (Py.split cmd !! 1%nat) as [a|]; [|reflexivity].
    destruct (Py.float_of_str a) as [x|]; [|reflexivity].
    now destruct (Py.fgt x f0_0). }
  destruct (String.eqb cmd "r"); [|reflexivity].
  apply (reading_of_no_writes joint_names), read_all_only_reads.
Qed.

(** *** How the loop ends *)

(** X8: the loop returns normally only on a [q]: if it returns, the
    operator's input has a first line that reads [q] once trimmed and put in
    lower case, and everything before that line is a line that is not [q]
    (no Ctrl-C, no end of input). *)
Theorem loop_returns_on_quit (stdin : list keyboard) (st : console) (w : W) :
  res (loop stdin st w) = Ok tt ->
  exists before s after,
    stdin = (before ++ Line s :: after)%list /\
    Py.lower (Py.strip s) = "q" /\
    Forall not_quit before.
Proof.
  revert st w. induction stdin as [|key rest IH]; intros st w.
  - cbn [loop]. unfold bind, get, print, getitem, input.
    destruct (joint_positions st !! selected_joint st);
      cbv beta iota zeta delta [ret raise res]; discriminate.
  - cbn [loop]. unfold bind, get, print, getitem, input.
    destruct (joint_positions st !! selected_joint st) as [pos|];
      cbv beta iota zeta delta [ret raise res]; [|discriminate].
    destruct key as [s|]; [|discriminate].
    destruct (String.eqb (Py.lower (Py.strip s)) "q") eqn:Hq.
    + intros _. exists [], s, rest. apply String.eqb_eq in Hq.
      repeat split; [exact Hq | constructor].
    + specialize (IH (locals (command (Py.lower (Py.strip s)) st w))
                     (env (command (Py.lower (Py.strip s)) st w))).
      destruct (command (Py.lower (Py.strip s)) st w) as [[[]|e] l1 w1 ev1];
        cbn [locals env] in IH; [|discriminate].
      destruct (loop rest l1 w1) as [r2 l2 w2 ev2]. cbn [res] in *.
      intros Hr. destruct (IH Hr) as (before & s' & after & -> & Hs' & Hbefore).
      exists (Line s :: before), s', after.
      repeat split; [exact Hs'|]. constructor; [|exact Hbefore].
      cbn. now apply String.eqb_neq.
Qed.

(** The keys of the cache *)

Lemma insert_full_cache (j : string) (v : Py.float)
    (d : gmap string Py.float) :
  In j joint_names -> full_cache d -> full_cache (<[j := v]> d).
Proof.
  intros Hj Hd k. rewrite lookup_insert_is_Some.
  destruct (decide (j = k)) as [->|Hne]; [tauto|].
  rewrite <- (Hd k). tauto.
Qed.

Lemma refresh_full_cache (j : string) (r : result reading) (st : console) :
  In j joint_names -> full_cache (joint_positions st) ->
  full_cache (joint_positions (refresh j r st)).
Proof.
  intros Hj Hd. unfold refresh.
  destruct (refreshed_value r); [|exact Hd]. now apply insert_full_cache.
Qed.

Lemma fold_refresh_full_cache (outs : list (string * result reading))
    (st : console) :
  (forall jr, In jr outs -> In (fst jr) joint_names) ->
  full_cache (joint_positions st) ->
  full_cache (joint_positions
    (fold_left (fun l jr => refresh (fst jr) (snd jr) l) outs st)).
Proof.
  revert st. induction outs as [|[j0 r0] outs IH]; intros st Hin Hd;
    [exact Hd|].
  cbn. apply IH; [intros jr H; apply Hin; now right|].
  apply refresh_full_cache; [|exact Hd]. apply (Hin (j0, r0)). now left.
Qed.

Lemma move_cache (op : Py.float -> Py.float -> Py.float) (st : console)
    (w : W) :
  joint_positions (locals (move op st w)) = joint_positions st \/
  exists v,
    joint_positions (locals (move op st w))
    = <[selected_joint st := v]> (joint_positions st).
Proof. run. lookup_selected st; repeat step; cbn; eauto. Qed.

Lemma command_full_cache (cmd : string) (st : console) (w : W) :
  valid st -> full_cache (joint_positions st) ->
  full_cache (joint_positions (locals (command cmd st w))).
Proof.
  intros [Hsel _] Hd.
  assert (Hmove : forall op,
    full_cache (joint_positions (locals (move op st w)))).
  { intros op. destruct (move_cache op st w) as [-> | [v ->]];
      [exact Hd | now apply insert_full_cache]. }
  unfold command.
  destruct (Py.startswith cmd "j").
  { rewrite select_joint_eq.
    destruct (Py.split cmd !! 1%nat) as [a|]; [|exact Hd].
    destruct (Py.int a) as [n|]; [|exact Hd].
    destruct ((1 <=? n) && (n <=? 6))%Z; exact Hd. }
  destruct (String.eqb cmd "+"); [apply Hmove|].
  destruct (String.eqb cmd "-"); [apply Hmove|].
  destruct (Py.startswith cmd "s").
  { rewrite set_step_size_eq.
    destruct (Py.split cmd !! 1%nat) as [a|]; [|exact Hd].
    destruct (Py.float_of_str a) as [x|]; [|exact Hd].
    destruct (Py.fgt x f0_0); exact Hd. }
  destruct (String.eqb cmd "r"); [|exact Hd].
  unfold read_all, bind, print.
  destruct (for_each_reads read_position refresh read_position_eq
              (fun _ _ => eq_refl) joint_names st w)
    as (_ & [rest Hpre] & _ & Hloc & _).
  destruct (for_each joint_names read_position st w) as [r l1 w1 ev1].
  cbn [res locals env events] in *. rewrite Hloc.
  apply fold_refresh_full_cache; [|exact Hd].
  intros jr Hjr. rewrite Hpre. apply in_or_app. left.
  now apply in_map.
Qed.

Lemma loop_result (stdin : list keyboard) (st : console) (w : W) :
  valid st -> full_cache (joint_positions st) ->
  res (loop stdin st w) = Ok tt \/
  res (loop stdin st w) = Raise KeyboardInterrupt \/
  res (loop stdin st w) = Raise EOFError /\ Forall not_quit stdin.
Proof.
  revert st w. induction stdin as [|key rest IH]; intros st w Hst Hd.
  - cbn [loop]. unfold bind, get, print, getitem, input.
    destruct (proj2 (Hd (selected_joint st)) (proj1 Hst)) as [pos ->].
    cbv beta iota zeta delta [ret raise res]. right. right.
    split; [reflexivity | constructor].
  - cbn [loop]. unfold bind, get, print, getitem, input.
    destruct (proj2 (Hd (selected_joint st)) (proj1 Hst)) as [pos ->].
    cbv beta iota zeta delta [ret raise res].
    destruct key as [s|]; [|now (right; left)].
    destruct (String.eqb (Py.lower (Py.strip s)) "q") eqn:Hq; [now left|].
    pose proof (command_valid (Py.lower (Py.strip s)) st w Hst) as Hst1.
    pose proof (command_full_cache (Py.lower (Py.strip s)) st w Hst Hd)
      as Hd1.
    destruct (command_result (Py.lower (Py.strip s)) st w) as [Hr | Hr];
      destruct (command (Py.lower (Py.strip s)) st w) as [r1 l1 w1 ev1];
      cbn [res locals] in *; subst r1; [|now (right; left)].
    specialize (IH l1 w1 Hst1 Hd1).
    destruct (loop rest l1 w1) as [r2 l2 w2 ev2]. cbn [res] in *.
    destruct IH as [-> | [-> | [-> Hrest]]]; [now left | now (right; left) |].
    right. right. split; [reflexivity|]. constructor; [|exact Hrest].
    cbn. now apply String.eqb_neq.
Qed.

(** *** Start-up and [main] *)

Lemma initial_keys (js : list string) (d : gmap string Py.float) (w : W) :
  res (for_each js read_initial_position d w) = Ok tt ->
  forall j,
    is_Some (locals (for_each js read_initial_position d w) !! j)
    <-> is_Some (d !! j) \/ In j js.
Proof.
  revert d w. induction js as [|j0 js IH]; intros d w.
  - cbn. tauto.
  - cbn [for_each]. unfold bind. rewrite read_initial_position_eq.
    destruct (motor_bus_read "Present_Position" j0 w) as [r0 w'].
    destruct r0 as [a|[cls msg|]]; cbv beta iota; [| |discriminate].
    + specialize (IH (store_initial j0 (Ok a) d) w').
      destruct (for_each js read_initial_position _ w') as [r2 l2 w2 ev2].
      cbn [res locals] in *. intros Hr j. rewrite (IH Hr j). cbn.
      rewrite lookup_insert_is_Some.
      destruct (decide (j0 = j)) as [->|Hne]; tauto.
    + specialize (IH (store_initial j0 (Raise (Exception cls msg)) d) w').
      destruct (for_each js read_initial_position _ w') as [r2 l2 w2 ev2].
      cbn [res locals] in *. intros Hr j. rewrite (IH Hr j). cbn.
      rewrite lookup_insert_is_Some.
      destruct (decide (j0 = j)) as [->|Hne]; tauto.
Qed.

(** The start-up seen as its loop over the joints, after what comes before
    it. *)
Lemma startup_cases (w : W) :
  (exists e w' before,
     robot_is_connected w = false /\
     startup ∅ w = Outcome (Raise e) ∅ w' (before ++ [Connect (Raise e)]) /\
     Forall on_joints before) \/
  (exists w0 before,
     connects before = (if robot_is_connected w then 0 else 1)%nat /\
     disconnects before = 0%nat /\
     res (startup ∅ w)
     = res (for_each joint_names read_initial_position ∅ w0) /\
     locals (startup ∅ w)
     = locals (for_each joint_names read_initial_position ∅ w0) /\
     events (startup ∅ w)
     = (before ++ events (for_each joint_names read_initial_position ∅ w0))%list).
Proof.
  unfold startup, bind, print, is_connected, connect, call, ret.
  destruct (robot_is_connected w); cbn [negb].
  - right. exists w.
    exists [Print [Text "Creating robot object..."];
            Print [Text "Connecting to robot..."];
            Print [Text "Robot connected successfully!"];
            Print [Text (nl ++ "Reading initial positions...")]].
    destruct (for_each joint_names read_initial_position ∅ w)
      as [r l1 w1 ev1].
    cbn [res locals env events app]. repeat split.
  - destruct (robot_connect w) as [[[]|e] w0].
    + right. exists w0.
      exists [Print [Text "Creating robot object..."];
              Print [Text "Connecting to robot..."]; Connect (Ok tt);
              Print [Text "Robot connected successfully!"];
              Print [Text (nl ++ "Reading initial positions...")]].
      destruct (for_each joint_names read_initial_position ∅ w0)
        as [r l1 w1 ev1].
      cbn [res locals env events app]. repeat split.
    + left. exists e, w0.
      exists [Print [Text "Creating robot object..."];
              Print [Text "Connecting to robot..."]].
      repeat split; once_prints.
Qed.

Lemma initial_only_reads (d : gmap string Py.float) (w : W) :
  Forall (reading_of joint_names)
    (events (for_each joint_names read_initial_position d w)).
Proof.
  apply (for_each_only_reads read_initial_position store_initial
           read_initial_position_eq joint_names joint_names d w).
  auto.
Qed.

Lemma startup_result (w : W) :
  res (startup ∅ w) = Ok tt \/
  res (startup ∅ w) = Raise KeyboardInterrupt \/
  exists e, res (startup ∅ w) = Raise e /\
            In (Connect (Raise e)) (events (startup ∅ w)).
Proof.
  destruct (startup_cases w)
    as [(e & w' & before & _ & -> & _) | (w0 & before & _ & _ & -> & _)].
  - right. right. exists e. split; [reflexivity|].
    cbn. apply in_or_app. right. now left.
  - destruct (for_each_reads read_initial_position store_initial
                read_initial_position_eq (fun _ _ => eq_refl) joint_names
                ∅ w0) as ([[-> _] | [-> _]] & _); auto.
Qed.

Lemma startup_keys (w : W) :
  res (startup ∅ w) = Ok tt -> full_cache (locals (startup ∅ w)).
Proof.
  destruct (startup_cases w)
    as [(e & w' & before & _ & -> & _)
       | (w0 & before & _ & _ & -> & -> & _)];
    [discriminate|].
  intros Hr j. rewrite (initial_keys joint_names ∅ w0 Hr j).
  rewrite lookup_empty. split; [intros [[x Hx]|H]; [discriminate Hx | exact H]
                               | auto].
Qed.

Lemma startup_lifecycle (w : W) :
  connects (events (startup ∅ w))
  = (if robot_is_connected w then 0 else 1)%nat /\
  disconnects (events (startup ∅ w)) = 0%nat.
Proof.
  destruct (startup_cases w)
    as [(e & w' & before & Hc & -> & Hbefore)
       | (w0 & before & Hc & Hd & _ & _ & ->)].
  - cbn [events]. rewrite Hc.
    destruct (on_joints_quiet before Hbefore) as [H1 H2].
    unfold connects, disconnects in *.
    rewrite !List.filter_app, !length_app, H1, H2. now split.
  - destruct (on_joints_quiet _
                (reading_of_on_joints _ (initial_only_reads ∅ w0)))
      as [H1 H2].
    unfold connects, disconnects in *.
    rewrite !List.filter_app, !length_app, H1, H2, Hc, Hd.
    split; [apply Nat.add_0_r | reflexivity].
Qed.

(** The guarded loop and the [finally] block *)

Lemma guarded_loop_result (stdin : list keyboard) (st : console) (w : W) :
  valid st -> full_cache (joint_positions st) ->
  res (guarded_loop stdin st w) = Ok tt \/
  res (guarded_loop stdin st w) = Raise EOFError /\ Forall not_quit stdin.
Proof.
  intros Hst Hd. pose proof (loop_result stdin st w Hst Hd) as H.
  unfold guarded_loop, try_except_KeyboardInterrupt, print.
  destruct (loop stdin st w) as [r l1 w1 ev1]. cbn [res] in *.
  destruct H as [-> | [-> | [-> Hq]]]; [now left | now left |].
  right. now split.
Qed.

Lemma session_cases (stdin : list keyboard) (st : console) (w : W) :
  exists tail,
    events (session stdin st w)
    = (events (guarded_loop stdin st w) ++ tail)%list /\
    connects tail = 0%nat /\ (disconnects tail <= 1)%nat /\
    (res (session stdin st w) = res (guarded_loop stdin st w) \/
     exists e, res (session stdin st w) = Raise e /\
               In (Disconnect (Raise e)) tail).
Proof.
  unfold session, try_finally, release, bind, is_connected, print,
    disconnect, call, ret.
  destruct (guarded_loop stdin st w) as [r l1 w1 ev1].
  cbn [res locals env events].
  destruct (robot_is_connected w1).
  - destruct (robot_disconnect w1) as [[[]|e] w2]; cbn [res events app].
    + eexists. split; [reflexivity|]. cbn. repeat split; auto.
    + eexists. split; [reflexivity|]. cbn. repeat split; auto.
      right. exists e. split; [reflexivity|]. auto.
  - exists []. cbn. repeat split; auto.
Qed.

Lemma menu_eq (st : console) (w : W) :
  exists lines,
    menu st w = Outcome (Ok tt) st w lines /\ Forall on_joints lines.
Proof. eexists. split; [reflexivity | once_prints]. Qed.

Lemma main_eq (stdin : list keyboard) (w : W) :
  (exists e, res (startup ∅ w) = Raise e /\
     main stdin w
     = (Raise e, env (startup ∅ w), events (startup ∅ w))) \/
  (exists lines,
     res (startup ∅ w) = Ok tt /\ Forall on_joints lines /\
     main stdin w
     = (res (session stdin
               (Console (locals (startup ∅ w)) (nth 0 joint_names "") f300_0)
               (env (startup ∅ w))),
        env (session stdin
               (Console (locals (startup ∅ w)) (nth 0 joint_names "") f300_0)
               (env (startup ∅ w))),
        (events (startup ∅ w) ++ lines ++
         events (session stdin
               (Console (locals (startup ∅ w)) (nth 0 joint_names "") f300_0)
               (env (startup ∅ w))))%list)).
Proof.
  unfold main. destruct (startup ∅ w) as [[[]|e] d1 w1 ev1];
    cbn [res locals env events]; [|left; eauto].
  right. unfold bind.
  destruct (menu_eq (Console d1 (nth 0 joint_names "") f300_0) w1)
    as (lines & -> & Hlines).
  exists lines. split; [reflexivity|]. split; [exact Hlines|].
  now destruct (session stdin (Console d1 (nth 0 joint_names "") f300_0) w1).
Qed.

(** Every turn of the loop starts with the selected joint, its cache entry
    and the step size, then prompts. *)
Lemma loop_head (stdin : list keyboard) (st : console) (w : W)
    (pos : Py.float) :
  joint_positions st !! selected_joint st = Some pos ->
  exists rest,
    events (loop stdin st w)
    = Print [Text (nl ++ "Selected joint: "); Text (selected_joint st)]
      :: Print [Text "Current position: "; Float pos]
      :: Print [Text "Step size: "; Float (step_size st)]
      :: Input prompt :: rest.
Proof.
  intros Hpos. destruct stdin as [|key stdin]; cbn [loop];
    unfold bind, get, print, getitem, input; rewrite Hpos;
    cbv beta iota zeta delta [ret raise res locals env events];
    [eexists; reflexivity|].
  destruct key as [line|]; [|eexists; reflexivity].
  destruct (String.eqb (Py.lower (Py.strip line)) "q");
    [eexists; reflexivity|].
  destruct (command (Py.lower (Py.strip line)) st w) as [[[]|e] l1 w1 ev1];
    [|eexists; reflexivity].
  destruct (loop stdin l1 w1) as [r2 l2 w2 ev2]. eexists. reflexivity.
Qed.

(** X9: when the start-up completes, [main] prints the menu and then runs
    the guarded loop with its [finally] block from the state made of the
    cache that the start-up filled, the joint shoulder_pan and the step
    size 300.0.  That state is valid, its cache has exactly the six joints
    as keys, and the first lines of the loop show shoulder_pan, the value
    the start-up stored for it and 300.0, before the first prompt. *)
Theorem main_enters_loop_with_startup_cache (stdin : list keyboard) (w : W) :
  res (startup ∅ w) = Ok tt ->
  exists st pos rest,
    joint_positions st = locals (startup ∅ w) /\
    selected_joint st = "shoulder_pan" /\
    step_size st = Py.float_of_Z 300 /\
    valid st /\ full_cache (joint_positions st) /\
    locals (startup ∅ w) !! "shoulder_pan" = Some pos /\
    main stdin w
    = (res (session stdin st (env (startup ∅ w))),
       env (session stdin st (env (startup ∅ w))),
       (events (startup ∅ w) ++ events (menu st (env (startup ∅ w))) ++
        events (session stdin st (env (startup ∅ w))))%list) /\
    events (session stdin st (env (startup ∅ w)))
    = Print [Text (nl ++ "Selected joint: "); Text "shoulder_pan"]
      :: Print [Text "Current position: "; Float pos]
      :: Print [Text "Step size: "; Float (Py.float_of_Z 300)]
      :: Input prompt :: rest.
Proof.
  intros Hr. pose proof (startup_keys w Hr) as Hfull.
  unfold main. destruct (startup ∅ w) as [r d1 w1 ev1].
  cbn [res locals env events] in *. subst r.
  destruct (proj2 (Hfull "shoulder_pan")) as [pos Hpos]; [now left|].
  replace (Py.float_of_Z 300) with f300_0 by (vm_compute; reflexivity).
  change (nth 0 joint_names "") with "shoulder_pan".
  set (st := Console d1 "shoulder_pan" f300_0).
  destruct (loop_head stdin st w1 pos Hpos) as [rest Hloop].
  assert (Hsession : exists rest',
    events (session stdin st w1)
    = Print [Text (nl ++ "Selected joint: "); Text "shoulder_pan"]
      :: Print [Text "Current position: "; Float pos]
      :: Print [Text "Step size: "; Float f300_0]
      :: Input prompt :: rest').
  { unfold session, try_finally, guarded_loop, try_except_KeyboardInterrupt,
      print.
    destruct (loop stdin st w1) as [r l1 w2 ev2]. cbn [events] in Hloop.
    subst ev2. destruct r as [[]|[cls msg|]];
      destruct (release l1 w2) as [[[]|e] l3 w3 ev3];
      cbn [events app]; eexists; reflexivity. }
  destruct Hsession as [rest' Hsession].
  exists st, pos, rest'.
  split; [reflexivity|]. split; [reflexivity|]. split; [reflexivity|].
  split; [split; [now left | reflexivity]|].
  split; [exact Hfull|]. split; [exact Hpos|]. split; [|exact Hsession].
  unfold bind. destruct (menu_eq st w1) as (lines & -> & _).
  cbn [events]. now destruct (session stdin st w1).
Qed.

(** X10: a bus error never ends [main]: [main] returns normally, or raises
    [KeyboardInterrupt], or raises [EOFError] because the input ended
    without a [q] line, or raises what [robot.connect()] or
    [robot.disconnect()] raised. *)
Theorem main_result (stdin : list keyboard) (w : W) :
  fst (fst (main stdin w)) = Ok tt \/
  fst (fst (main stdin w)) = Raise KeyboardInterrupt \/
  fst (fst (main stdin w)) = Raise EOFError /\ Forall not_quit stdin \/
  exists e,
    fst (fst (main stdin w)) = Raise e /\
    (In (Connect (Raise e)) (snd (main stdin w)) \/
     In (Disconnect (Raise e)) (snd (main stdin w))).
Proof.
  destruct (main_eq stdin w) as [(e & He & ->) | (lines & Hok & _ & ->)];
    cbn [fst snd].
  - destruct (startup_result w) as [H | [H | (e' & H & Hin)]];
      rewrite He in H; [discriminate H | injection H as ->; auto |].
    injection H as ->. do 3 right. exists e'. auto.
  - set (st := Console (locals (startup ∅ w)) (nth 0 joint_names "") f300_0).
    assert (Hst : valid st) by (split; [now left | reflexivity]).
    assert (Hd : full_cache (joint_positions st)) by now apply startup_keys.
    destruct (session_cases stdin st (env (startup ∅ w)))
      as (tail & Hev & _ & _ & [-> | (e & -> & Hin)]).
    + destruct (guarded_loop_result stdin st (env (startup ∅ w)) Hst Hd)
        as [-> | [-> Hq]]; auto.
    + do 3 right. exists e. split; [reflexivity|]. right.
      rewrite Hev. apply in_or_app. right. apply in_or_app. right.
      apply in_or_app. now right.
Qed.

(** X11: [main] calls [robot.connect()] once if the robot is not connected
    when it starts and not at all otherwise; it calls [robot.disconnect()] at
    most once, and never when the start-up did not complete (an error or an
    interrupt during the start-up leaves the robot connected). *)
Theorem main_lifecycle (stdin : list keyboard) (w : W) :
  connects (snd (main stdin w))
  = (if robot_is_connected w then 0 else 1)%nat /\
  (disconnects (snd (main stdin w)) <= 1)%nat /\
  (res (startup ∅ w) <> Ok tt -> disconnects (snd (main stdin w)) = 0%nat).
Proof.
  destruct (startup_lifecycle w) as [Hc Hd].
  destruct (main_eq stdin w) as [(e & He & ->) | (lines & Hok & Hlines & ->)];
    cbn [fst snd].
  - rewrite Hc, Hd. repeat split; lia.
  - set (st := Console (locals (startup ∅ w)) (nth 0 joint_names "") f300_0).
    assert (Hst : valid st) by (split; [now left | reflexivity]).
    destruct (session_cases stdin st (env (startup ∅ w)))
      as (tail & -> & Hct & Hdt & _).
    destruct (on_joints_quiet lines Hlines) as [Hcl Hdl].
    destruct (on_joints_quiet _
                (guarded_loop_on_joints' stdin st (env (startup ∅ w)) Hst))
      as [Hcg Hdg].
    unfold connects, disconnects in *.
    rewrite !List.filter_app, !length_app, Hc, Hd, Hcl, Hdl, Hcg, Hdg, Hct.
    repeat split; try lia. intros H. now rewrite Hok in H.
Qed.

(** *** How the commands compose *)

Lemma read_all_lookup (st : console) (w : W) (j : string)
    (r : result reading) :
  In (Read "Present_Position" j r) (events (read_all st w)) ->
  joint_positions (locals (read_all st w)) !! j
  = match refreshed_value r with
    | Some v => Some v
    | None => joint_positions st !! j
    end.
Proof.
  unfold read_all, bind, print.
  destruct (for_each_reads read_position refresh read_position_eq
              (fun _ _ => eq_refl) joint_names st w)
    as (_ & [rest Hpre] & _ & Hloc & Hin).
  destruct (for_each joint_names read_position st w) as [r1 l1 w1 ev1].
  cbn [res locals env events app] in *.
  intros [H | H]; [discriminate H|]. rewrite Hloc.
  apply fold_refresh_lookup; [|now apply Hin].
  pose proof joint_names_NoDup as Hnd. rewrite Hpre in Hnd.
  now apply NoDup_app in Hnd as [Hnd _].
Qed.

(** X12: after a [j] command that selects the joint [joint], the next [+]
    or [-] writes to that joint, from that joint's cached position and with
    the step size as it was. *)
Theorem select_then_move (cmd a : string) (N : Z) (joint : string)
    (P : Py.float) (st : console) (w : W) :
  Py.startswith cmd "j" = true ->
  Py.split cmd !! 1%nat = Some a -> Py.int a = Some N ->
  (1 <= N <= 6)%Z ->
  joint_names !! Z.to_nat (N - 1) = Some joint ->
  joint_positions st !! joint = Some P ->
  writes (events (command "+" (locals (command cmd st w))
                    (env (command cmd st w))))
  = [("Goal_Position", Py.fadd P (step_size st), joint)] /\
  writes (events (command "-" (locals (command cmd st w))
                    (env (command cmd st w))))
  = [("Goal_Position", Py.fsub P (step_size st), joint)].
Proof.
  intros Hj Ha HN Hrange Hjoint HP.
  rewrite (command_j cmd st w Hj), select_joint_eq, Ha, HN.
  assert (Hb : ((1 <=? N) && (N <=? 6))%Z = true).
  { apply andb_true_intro. split; apply Z.leb_le; lia. }
  rewrite Hb. cbn [locals env].
  assert (Hn : nth (Z.to_nat (N - 1)) joint_names "" = joint).
  { pose proof (nth_joint_names N Hb) as Hn. congruence. }
  rewrite Hn, command_plus, command_minus.
  split;
    apply (move_writes _ (Console (joint_positions st) joint (step_size st)));
    exact HP.
Qed.

(** X13: after an [s] command that sets the step size to [F > 0], the next
    [+] writes the cached position plus [F] and the next [-] the cached
    position minus [F], to the joint that was and is selected. *)
Theorem set_step_then_move (cmd a : string) (F P : Py.float) (st : console)
    (w : W) :
  Py.startswith cmd "s" = true ->
  Py.split cmd !! 1%nat = Some a -> Py.float_of_str a = Some F ->
  Py.fgt F f0_0 = true ->
  joint_positions st !! selected_joint st = Some P ->
  writes (events (command "+" (locals (command cmd st w))
                    (env (command cmd st w))))
  = [("Goal_Position", Py.fadd P F, selected_joint st)] /\
  writes (events (command "-" (locals (command cmd st w))
                    (env (command cmd st w))))
  = [("Goal_Position", Py.fsub P F, selected_joint st)].
Proof.
  intros Hs Ha HF Hgt HP.
  rewrite (command_s cmd st w Hs), set_step_size_eq, Ha, HF, Hgt.
  cbn [locals env]. rewrite command_plus, command_minus.
  split;
    apply (move_writes _
             (Console (joint_positions st) (selected_joint st) F));
    exact HP.
Qed.

(** X14: moves chain on what was read back, not on what was commanded:
    after a [+] or [-] whose read-back returned a number or a one-element
    array of value [V], the next [+] or [-] computes its target from [V]. *)
Theorem move_then_move (op op' : Py.float -> Py.float -> Py.float)
    (st : console) (w : W) (pos : reading) (V : Py.float) :
  In (Read "Present_Position" (selected_joint st) (Ok pos))
     (events (move op st w)) ->
  scalar_of pos = Some V ->
  writes (events (move op' (locals (move op st w)) (env (move op st w))))
  = [("Goal_Position", op' V (step_size st), selected_joint st)].
Proof.
  intros Hin Hpos.
  destruct (move_round_trip op st w pos V Hin Hpos) as [_ HV].
  destruct (move_frame op st w) as (Hsel & Hstep & _).
  rewrite <- Hsel in HV.
  rewrite (move_writes op' _ _ V HV). now rewrite Hsel, Hstep.
Qed.

(** X15: after an [r] command that read the number or one-element array of
    value [V] for the selected joint, the next [+] or [-] computes its
    target from [V]; after an [r] whose read of the selected joint failed,
    from the position cached before. *)
Theorem refresh_then_move (op : Py.float -> Py.float -> Py.float)
    (st : console) (w : W) (r : result reading) (P : Py.float) :
  In (Read "Present_Position" (selected_joint st) r)
     (events (command "r" st w)) ->
  match refreshed_value r with
  | Some v => Some v
  | None => joint_positions st !! selected_joint st
  end = Some P ->
  writes (events (move op (locals (command "r" st w))
                    (env (command "r" st w))))
  = [("Goal_Position", op P (step_size st), selected_joint st)].
Proof.
  rewrite command_r. intros Hin HP.
  destruct (read_all_frame st w) as [Hsel Hstep].
  pose proof (read_all_lookup st w _ r Hin) as Hlook.
  rewrite HP, <- Hsel in Hlook.
  rewrite (move_writes op _ _ P Hlook). now rewrite Hsel, Hstep.
Qed.

End Proofs.

(** ** The claims on the scripted robot *)

Ltac in_run := vm_compute; repeat (first [left; reflexivity | right]).

Lemma C1_witness :
  joint_positions Sim.console0 !! selected_joint Sim.console0
  = Some (Py.float_of_Z 100) /\
  writes (events (command "+" Sim.console0 Sim.reads_395))
  = [("Goal_Position", Py.fadd (Py.float_of_Z 100) (step_size Sim.console0),
      selected_joint Sim.console0)].
Proof.
  split; [vm_compute; reflexivity|].
  apply (C1_move_writes_goal_position Sim.console0 Sim.reads_395
           (Py.float_of_Z 100)).
  vm_compute; reflexivity.
Defined.

Lemma C3_witness :
  res (command "+" Sim.console0 Sim.reads_395) = Ok tt /\
  joint_positions (locals (command "+" Sim.console0 Sim.reads_395))
    !! selected_joint Sim.console0
  = Some (Py.float_of_Z 395).
Proof.
  apply (C3_move_round_trip "+" Sim.console0 Sim.reads_395
           (Py.float_of_Z 400) (Py.float_of_Z 395)
           (Number (Py.float_of_Z 395))).
  - left; reflexivity.
  - in_run.
  - in_run.
  - reflexivity.
Defined.

Lemma C4_witness :
  valid Sim.console0 /\
  valid (locals (command "j 3" Sim.console0 Sim.reads_395)).
Proof.
  assert (H : valid Sim.console0).
  { split; [left; reflexivity | vm_compute; reflexivity]. }
  split; [exact H|].
  apply (C4_invariant "j 3" Sim.console0 Sim.reads_395 H).
Defined.

Lemma C5_witness :
  exists joint,
    joint_names !! Z.to_nat (3 - 1) = Some joint /\
    command "j 3" Sim.console0 Sim.reads_395
    = Outcome (Ok tt)
        (Console (joint_positions Sim.console0) joint
           (step_size Sim.console0))
        Sim.reads_395 [Print [Text "Selected joint: "; Text joint]].
Proof.
  apply (proj1 (C5_select_joint "j 3" Sim.console0 Sim.reads_395 eq_refl)
           "3" 3%Z).
  - reflexivity.
  - reflexivity.
  - lia.
Defined.

Lemma C6_witness :
  command "s 2.5" Sim.console0 Sim.reads_395
  = Outcome (Ok tt)
      (Console (joint_positions Sim.console0) (selected_joint Sim.console0)
         (Py.round_ratio false 5 2))
      Sim.reads_395
      [Print [Text "Step size set to "; Float (Py.round_ratio false 5 2)]].
Proof.
  apply (proj1 (C6_set_step_size "s 2.5" Sim.console0 Sim.reads_395 eq_refl)
           "2.5" (Py.round_ratio false 5 2)).
  - reflexivity.
  - vm_compute; reflexivity.
  - vm_compute; reflexivity.
Defined.

Lemma C8_witness :
  command (Py.lower (Py.strip " Hello ")) Sim.console0 Sim.reads_395
  = Outcome (Ok tt) Sim.console0 Sim.reads_395
      [Print [Text "Unknown command"]].
Proof.
  apply (C8_unknown_command " Hello " Sim.console0 Sim.reads_395).
  - vm_compute; discriminate.
  - vm_compute; discriminate.
  - vm_compute; discriminate.
  - vm_compute; discriminate.
  - vm_compute; reflexivity.
  - vm_compute; reflexivity.
Defined.

(** C8 as stated fails: "jump 2" is not a command of the table, yet the
    console takes it for [j 2] and selects shoulder_lift. *)
Lemma C8_counterexample :
  ~ (defined_command (Py.lower (Py.strip "jump 2")) = false ->
     command (Py.lower (Py.strip "jump 2")) Sim.console0 Sim.reads_395
     = Outcome (Ok tt) Sim.console0 Sim.reads_395
         [Print [Text "Unknown command"]]).
Proof.
  intros H. specialize (H eq_refl).
  apply (f_equal events) in H. vm_compute in H. discriminate H.
Qed.

Lemma C2_witness :
  In (Read "Present_Position" "shoulder_pan"
        (Raise (Exception "ConnectionError" "timeout")))
     (events (command "r" Sim.console0 Sim.first_read_fails)) /\
  joint_positions (locals (command "r" Sim.console0 Sim.first_read_fails))
    !! "shoulder_pan"
  = joint_positions Sim.console0 !! "shoulder_pan".
Proof.
  assert (H : In (Read "Present_Position" "shoulder_pan"
                    (Raise (Exception "ConnectionError" "timeout")))
                 (events (command "r" Sim.console0 Sim.first_read_fails))).
  { in_run. }
  split; [exact H|].
  destruct (C2_read_all_keeps_failed_entries Sim.console0
              Sim.first_read_fails) as (_ & _ & _ & _ & Hkeep & _).
  exact (Hkeep _ _ _ H).
Defined.

(** C2 as stated fails: the read of shoulder_pan fails and its cache entry
    is still 100.0, not 0.0. *)
Lemma C2_counterexample :
  ~ (In (Read "Present_Position" "shoulder_pan"
           (Raise (Exception "ConnectionError" "timeout")))
        (events (command "r" Sim.console0 Sim.first_read_fails)) ->
     joint_positions (locals (command "r" Sim.console0 Sim.first_read_fails))
       !! "shoulder_pan"
     = Some f0_0).
Proof.
  intros H.
  assert (Hin : In (Read "Present_Position" "shoulder_pan"
                      (Raise (Exception "ConnectionError" "timeout")))
                   (events (command "r" Sim.console0 Sim.first_read_fails))).
  { in_run. }
  specialize (H Hin). vm_compute in H. discriminate H.
Qed.

Lemma C7_witness :
  In (Read "Present_Position" "shoulder_lift"
        (Raise (Exception "ConnectionError" "timeout")))
     (events (startup ∅ Sim.second_read_fails)) /\
  (locals (startup ∅ Sim.second_read_fails) !! "shoulder_lift" = Some f0_0 /\
   In (Print [Text "Error reading "; Text "shoulder_lift"; Text ": ";
              Text "timeout"])
      (events (startup ∅ Sim.second_read_fails))) /\
  (exists r, In (Read "Present_Position" "elbow_flex" r)
               (events (startup ∅ Sim.second_read_fails))) /\
  res (startup ∅ Sim.second_read_fails) = Ok tt /\
  reads (events (startup ∅ Sim.second_read_fails))
  = map (pair "Present_Position") joint_names.
Proof.
  assert (H : In (Read "Present_Position" "shoulder_lift"
                    (Raise (Exception "ConnectionError" "timeout")))
                 (events (startup ∅ Sim.second_read_fails))).
  { in_run. }
  split; [exact H|].
  destruct (C7_startup_read_failures Sim.second_read_fails)
    as (_ & _ & Hfail & _ & Hnext & Hall).
  split; [exact (Hfail _ _ _ H)|].
  split.
  - exact (Hnext ["shoulder_pan"] "shoulder_lift" "elbow_flex"
             ["wrist_flex"; "wrist_roll"; "gripper"] _ _ eq_refl H).
  - apply Hall.
    + intros j Hj. vm_compute in Hj. intuition discriminate.
    + intros e He. vm_compute in He. intuition discriminate.
Defined.

(** ** Properties of the Hub scripts *)

Section HubProofs.

Context {W : Type} {S : Hub.Services W}.

Ltac hub_run :=
  cbv beta iota zeta delta
    [Hub.upload_dataset_to_hf Hub.upload_main Hub.delete_branch_main
     Hub.report_delete_error Hub.bind Hub.ret Hub.raise Hub.log Hub.print
     Hub.print_exc Hub.call Hub.exists_ Hub.try_except_Exception
     Hub.is_Exception Hub.result_of Hub.events_of negb fst snd].

Ltac hub_step :=
  match goal with
  | |- context [Hub.path_exists ?x1 ?x2] =>
      destruct (Hub.path_exists x1 x2) eqn:?
  | |- context [Hub.validate_repo_id ?x1 ?x2] =>
      destruct (Hub.validate_repo_id x1 x2)
        as [[[]|[code text|cls text|]] ?] eqn:?
  | |- context [Hub.api_create_repo ?x1 ?x2 ?x3 ?x4 ?x5] =>
      destruct (Hub.api_create_repo x1 x2 x3 x4 x5)
        as [[[]|[code text|cls text|]] ?] eqn:?
  | |- context [Hub.create_lerobot_dataset_card ?x1 ?x2 ?x3] =>
      destruct (Hub.create_lerobot_dataset_card x1 x2 x3)
        as [[[]|[code text|cls text|]] ?] eqn:?
  | |- context [Hub.api_upload_folder ?x1 ?x2 ?x3 ?x4 ?x5] =>
      destruct (Hub.api_upload_folder x1 x2 x3 x4 x5)
        as [[[]|[code text|cls text|]] ?] eqn:?
  | |- context [Hub.create_branch ?x1 ?x2 ?x3 ?x4] =>
      destruct (Hub.create_branch x1 x2 x3 x4)
        as [[[]|[code text|cls text|]] ?] eqn:?
  | |- context [Hub.api_delete_branch ?x1 ?x2 ?x3 ?x4] =>
      destruct (Hub.api_delete_branch x1 x2 x3 x4)
        as [[[]|[code text|cls text|]] ?] eqn:?
  end; hub_run.

(** X16: nothing reaches the Hub and nothing is logged unless the dataset
    directory exists, its [meta/info.json] exists and the repository id is
    valid: otherwise [upload_dataset_to_hf] raises before any call. *)
Theorem upload_checks_before_calls (local_dataset_path repo_id version
    description : string) (private : bool) (w : W) :
  ~ (Hub.path_exists (Hub.Path local_dataset_path) w = true /\
     Hub.path_exists
       (Hub.Div (Hub.Div (Hub.Path local_dataset_path) "meta") "info.json") w
     = true /\
     fst (Hub.validate_repo_id repo_id w) = Hub.Done tt) ->
  Hub.hub_calls
    (Hub.events_of
       (Hub.upload_dataset_to_hf local_dataset_path repo_id version
          description private w)) = [] /\
  (forall level,
     Hub.logged level
       (Hub.events_of
          (Hub.upload_dataset_to_hf local_dataset_path repo_id version
             description private w)) = []) /\
  exists e,
    Hub.result_of
      (Hub.upload_dataset_to_hf local_dataset_path repo_id version
         description private w) = Hub.Raised e.
Proof.
  hub_run. intros Hpre.
  hub_step; [hub_step|]; [hub_step| |];
    try (exfalso; apply Hpre; repeat split; assumption);
    try (exfalso; apply Hpre; repeat split; try assumption;
         match goal with H : Hub.validate_repo_id _ _ = _ |- _ =>
           now rewrite H end);
    repeat split; eauto.
Qed.

(** X17: [upload_dataset_to_hf] uploads the folder only after the
    repository was created and the dataset card was built, and creates the
    version branch only after the folder was uploaded. *)
Theorem upload_order (local_dataset_path repo_id version description : string)
    (private : bool) (w : W) :
  (forall p rid t msg r,
     In (Hub.UploadFolder p rid t msg r)
        (Hub.events_of
           (Hub.upload_dataset_to_hf local_dataset_path repo_id version
              description private w)) ->
     In (Hub.CreateRepo repo_id "dataset" true private (Hub.Done tt))
        (Hub.events_of
           (Hub.upload_dataset_to_hf local_dataset_path repo_id version
              description private w)) /\
     In (Hub.CreateCard repo_id description (Hub.Done tt))
        (Hub.events_of
           (Hub.upload_dataset_to_hf local_dataset_path repo_id version
              description private w))) /\
  (forall rid b t r,
     In (Hub.CreateBranch rid b t r)
        (Hub.events_of
           (Hub.upload_dataset_to_hf local_dataset_path repo_id version
              description private w)) ->
     In (Hub.UploadFolder (Hub.Path local_dataset_path) repo_id "dataset"
           ("Upload dataset with version " ++ version) (Hub.Done tt))
        (Hub.events_of
           (Hub.upload_dataset_to_hf local_dataset_path repo_id version
              description private w))).
Proof.
  hub_run. repeat hub_step;
    (split; [intros p rid t msg r Hin | intros rid b t r Hin]);
    cbn in Hin;
    repeat (destruct Hin as [Hin|Hin]; try discriminate Hin);
    try contradiction; repeat split;
    cbn; repeat (first [left; reflexivity | right]).
Qed.

(** X18: [upload_dataset_to_hf] swallows no error: whatever a call raises
    is what the function raises; and when it is an [Exception] raised inside
    the [try] block (by any call but the validation of the repository id),
    the last thing done is to log "Error uploading dataset: " and the
    exception's text at level ERROR. *)
Theorem upload_reraises (local_dataset_path repo_id version description
    : string) (private : bool) (w : W) (e : Hub.event) (x : Hub.error) :
  In e (Hub.events_of
          (Hub.upload_dataset_to_hf local_dataset_path repo_id version
             description private w)) ->
  Hub.raised e = Some x ->
  Hub.result_of
    (Hub.upload_dataset_to_hf local_dataset_path repo_id version
       description private w) = Hub.Raised x /\
  (Hub.is_Exception x = true ->
   (forall rid r, e <> Hub.ValidateRepoId rid r) ->
   last (Hub.events_of
           (Hub.upload_dataset_to_hf local_dataset_path repo_id version
              description private w))
   = Some (Hub.Log "ERROR"
             (Hub.Str "Error uploading dataset: " :: Hub.str x))).
Proof.
  hub_run. repeat hub_step; cbn [In app]; intros Hin Hraised;
    repeat (destruct Hin as [<-|Hin];
            [cbn in Hraised; try discriminate Hraised|]);
    try contradiction; injection Hraised as <-;
    (split; [reflexivity|]); intros Hexc Hnot;
    try discriminate Hexc; try reflexivity;
    exfalso; eapply Hnot; reflexivity.
Qed.

(** X19: [upload_dataset_to_hf] returns only after the whole protocol ran:
    if it returns [url], then [url] is "https://huggingface.co/datasets/"
    followed by the repository id, the calls that reached the Hub are, in
    this order, [create_repo] (type "dataset", [exist_ok=True], the privacy
    asked for), [upload_folder] of the local path (commit message "Upload
    dataset with version " and the version) and [create_branch] of the
    version, all successful, and nothing was logged at level ERROR. *)
Theorem upload_returns_url (local_dataset_path repo_id version description
    : string) (private : bool) (w : W) (url : string) :
  Hub.result_of
    (Hub.upload_dataset_to_hf local_dataset_path repo_id version
       description private w) = Hub.Done url ->
  url = "https://huggingface.co/datasets/" ++ repo_id /\
  Hub.hub_calls
    (Hub.events_of
       (Hub.upload_dataset_to_hf local_dataset_path repo_id version
          description private w))
  = [Hub.CreateRepo repo_id "dataset" true private (Hub.Done tt);
     Hub.UploadFolder (Hub.Path local_dataset_path) repo_id "dataset"
       ("Upload dataset with version " ++ version) (Hub.Done tt);
     Hub.CreateBranch repo_id version "dataset" (Hub.Done tt)] /\
  Hub.logged "ERROR"
    (Hub.events_of
       (Hub.upload_dataset_to_hf local_dataset_path repo_id version
          description private w)) = [].
Proof.
  hub_run. repeat hub_step; intros Hr; try discriminate Hr.
  injection Hr as <-. repeat split.
Qed.

(** X20: [main] of [delete_branch.py] asks the Hub exactly once to delete
    the branch it was given (also when that branch is "main"), and lets no
    [Exception] out: it returns normally unless the call was interrupted
    from the keyboard. *)
Theorem delete_branch_main_outcome (args : Hub.delete_args) (w : W) :
  exists r,
    Hub.hub_calls (Hub.events_of (Hub.delete_branch_main args w))
    = [Hub.DeleteBranch (Hub.repo_id args) (Hub.branch args)
         (Hub.repo_type args) r] /\
    (Hub.result_of (Hub.delete_branch_main args w) = Hub.Done tt \/
     r = Hub.Raised Hub.Interrupt /\
     Hub.result_of (Hub.delete_branch_main args w)
     = Hub.Raised Hub.Interrupt).
Proof.
  hub_run. destruct (String.eqb (Hub.branch args) "main"); hub_run;
    hub_step; repeat case_bool_decide; hub_run; cbn; eauto.
Qed.

(** X21: [main] of [delete_branch.py] logs its two warnings exactly when
    the branch to delete is "main"; no other path logs at level WARNING. *)
Theorem delete_branch_main_warns (args : Hub.delete_args) (w : W) :
  Hub.logged "WARNING" (Hub.events_of (Hub.delete_branch_main args w))
  = if String.eqb (Hub.branch args) "main" then
      [[Hub.Str "Warning: Attempting to delete the 'main' branch."];
       [Hub.Str "Ensure you have set a different default branch first via the website settings."]]
    else [].
Proof.
  hub_run. destruct (String.eqb (Hub.branch args) "main"); hub_run;
    hub_step; repeat case_bool_decide; hub_run; reflexivity.
Qed.

(** X22: [main] of [delete_branch.py] reports what happened: it logs
    "Successfully deleted branch" exactly when the call returned, and it
    logs at level ERROR exactly when the call raised an [Exception]. *)
Theorem delete_branch_main_reports (args : Hub.delete_args) (w : W) :
  (In (Hub.Log "INFO"
         [Hub.Str "Successfully deleted branch '";
          Hub.Str (Hub.branch args); Hub.Str "'."])
      (Hub.events_of (Hub.delete_branch_main args w))
   <-> fst (Hub.api_delete_branch (Hub.repo_id args) (Hub.branch args)
              (Hub.repo_type args) w) = Hub.Done tt) /\
  (Hub.logged "ERROR" (Hub.events_of (Hub.delete_branch_main args w)) <> []
   <-> exists x,
         fst (Hub.api_delete_branch (Hub.repo_id args) (Hub.branch args)
                (Hub.repo_type args) w) = Hub.Raised x /\
         Hub.is_Exception x = true).
Proof.
  hub_run. destruct (String.eqb (Hub.branch args) "main"); hub_run;
    hub_step; repeat case_bool_decide; hub_run; cbn;
    (split; split); intros Hyp;
    first
      [ reflexivity
      | discriminate Hyp
      | exfalso; apply Hyp; reflexivity
      | solve [repeat (first [left; reflexivity | right])]
      | solve [eexists; split; reflexivity]
      | repeat (destruct Hyp as [Hyp|Hyp]; try discriminate Hyp);
        contradiction
      | destruct Hyp as (x & Hx & He);
        first [discriminate Hx | injection Hx as <-; discriminate He]
      | discriminate ].
Qed.

End HubProofs.

(** ** The further properties on the scripted robot and the scripted Hub *)

Lemma move_stores_read_back_witness :
  In (Read "Present_Position" (selected_joint Sim.console0)
        (Ok (Number (Py.float_of_Z 395))))
     (events (move Py.fadd Sim.console0 Sim.reads_395)) /\
  locals (move Py.fadd Sim.console0 Sim.reads_395)
  = refresh (selected_joint Sim.console0) (Ok (Number (Py.float_of_Z 395)))
      Sim.console0.
Proof.
  assert (H : In (Read "Present_Position" (selected_joint Sim.console0)
                    (Ok (Number (Py.float_of_Z 395))))
                 (events (move Py.fadd Sim.console0 Sim.reads_395))).
  { in_run. }
  split; [exact H|].
  exact (proj1 (move_stores_read_back Py.fadd Sim.console0 Sim.reads_395)
           _ H).
Defined.

Lemma move_reports_bus_errors_witness :
  res (move Py.fadd Sim.console0
         (Sim.World true [] [Raise (Exception "IOError" "bus down")]))
  = Ok tt /\
  locals (move Py.fadd Sim.console0
            (Sim.World true [] [Raise (Exception "IOError" "bus down")]))
  = Sim.console0 /\
  last (events (move Py.fadd Sim.console0
                  (Sim.World true [] [Raise (Exception "IOError" "bus down")])))
  = Some (Print [Text "Error: "; Text "bus down"]).
Proof.
  apply (move_reports_bus_errors Py.fadd Sim.console0
           (Sim.World true [] [Raise (Exception "IOError" "bus down")])
           (Write "Goal_Position" (Py.float_of_Z 400) "shoulder_pan"
              (Raise (Exception "IOError" "bus down")))
           "IOError" "bus down").
  - in_run.
  - reflexivity.
Defined.

Lemma command_without_bus_witness :
  res (command "j 2" Sim.console0 Sim.reads_395) = Ok tt /\
  env (command "j 2" Sim.console0 Sim.reads_395) = Sim.reads_395 /\
  joint_positions (locals (command "j 2" Sim.console0 Sim.reads_395))
  = joint_positions Sim.console0 /\
  exists line, events (command "j 2" Sim.console0 Sim.reads_395) = [Print line].
Proof.
  apply (command_without_bus "j 2" Sim.console0 Sim.reads_395);
    discriminate.
Defined.

Lemma guarded_loop_on_joints_witness :
  valid Sim.console0 /\
  Forall on_joints
    (events (guarded_loop [Line "+"; Line "r"; CtrlC] Sim.console0
               Sim.reads_395)).
Proof.
  assert (H : valid Sim.console0).
  { split; [left; reflexivity | vm_compute; reflexivity]. }
  split; [exact H|].
  apply (guarded_loop_on_joints [Line "+"; Line "r"; CtrlC] Sim.console0
           Sim.reads_395 H).
Defined.

Lemma writes_only_on_moves_witness :
  writes (events (command "r" Sim.console0 Sim.reads_395)) = [].
Proof.
  apply (writes_only_on_moves "r" Sim.console0 Sim.reads_395); discriminate.
Defined.

Lemma loop_returns_on_quit_witness :
  res (loop [Line "j 2"; Line " Q "; Line "+"] Sim.console0 Sim.reads_395)
  = Ok tt /\
  exists before s after,
    [Line "j 2"; Line " Q "; Line "+"] = (before ++ Line s :: after)%list /\
    Py.lower (Py.strip s) = "q" /\
    Forall not_quit before.
Proof.
  assert (H : res (loop [Line "j 2"; Line " Q "; Line "+"] Sim.console0
                     Sim.reads_395) = Ok tt).
  { vm_compute; reflexivity. }
  split; [exact H|].
  apply (loop_returns_on_quit _ Sim.console0 Sim.reads_395 H).
Defined.

Lemma main_enters_loop_with_startup_cache_witness :
  res (startup ∅ Sim.second_read_fails) = Ok tt /\
  exists rest,
    snd (main [Line "q"] Sim.second_read_fails)
    = (events (startup ∅ Sim.second_read_fails) ++
       events (menu Sim.console0 Sim.second_read_fails) ++
       Print [Text (nl ++ "Selected joint: "); Text "shoulder_pan"]
       :: Print [Text "Current position: "; Float (Py.float_of_Z 1)]
       :: Print [Text "Step size: "; Float (Py.float_of_Z 300)]
       :: Input prompt :: rest)%list.
Proof.
  assert (H : res (startup ∅ Sim.second_read_fails) = Ok tt).
  { vm_compute; reflexivity. }
  split; [exact H|].
  destruct (main_enters_loop_with_startup_cache [Line "q"]
              Sim.second_read_fails H)
    as (st & pos & rest & _ & _ & _ & _ & _ & Hpos & Hmain & Hsession).
  exists rest. rewrite Hmain. cbn [snd]. rewrite Hsession.
  vm_compute in Hpos. injection Hpos as <-.
  reflexivity.
Defined.

Lemma main_lifecycle_witness :
  res (startup ∅ (Sim.World false [Raise KeyboardInterrupt] [])) <> Ok tt /\
  disconnects
    (snd (main [Line "q"] (Sim.World false [Raise KeyboardInterrupt] [])))
  = 0%nat.
Proof.
  assert (H : res (startup ∅ (Sim.World false [Raise KeyboardInterrupt] []))
              <> Ok tt).
  { vm_compute; discriminate. }
  split; [exact H|].
  apply (main_lifecycle [Line "q"]
           (Sim.World false [Raise KeyboardInterrupt] [])).
  exact H.
Defined.

Lemma select_then_move_witness :
  writes (events (command "+"
                    (locals (command "j 3" Sim.console0 Sim.reads_395))
                    (env (command "j 3" Sim.console0 Sim.reads_395))))
  = [("Goal_Position", Py.fadd f0_0 (step_size Sim.console0), "elbow_flex")].
Proof.
  refine (proj1 (select_then_move "j 3" "3" 3%Z "elbow_flex" f0_0
                   Sim.console0 Sim.reads_395 _ _ _ _ _ _)).
  - reflexivity.
  - reflexivity.
  - reflexivity.
  - lia.
  - reflexivity.
  - vm_compute; reflexivity.
Defined.

Lemma set_step_then_move_witness :
  writes (events (command "-"
                    (locals (command "s 2.5" Sim.console0 Sim.reads_395))
                    (env (command "s 2.5" Sim.console0 Sim.reads_395))))
  = [("Goal_Position",
      Py.fsub (Py.float_of_Z 100) (Py.round_ratio false 5 2),
      selected_joint Sim.console0)].
Proof.
  refine (proj2 (set_step_then_move "s 2.5" "2.5" (Py.round_ratio false 5 2)
                   (Py.float_of_Z 100) Sim.console0 Sim.reads_395 _ _ _ _ _)).
  - reflexivity.
  - reflexivity.
  - vm_compute; reflexivity.
  - vm_compute; reflexivity.
  - vm_compute; reflexivity.
Defined.

Lemma move_then_move_witness :
  writes (events (move Py.fsub
                    (locals (move Py.fadd Sim.console0 Sim.reads_395))
                    (env (move Py.fadd Sim.console0 Sim.reads_395))))
  = [("Goal_Position",
      Py.fsub (Py.float_of_Z 395) (step_size Sim.console0),
      selected_joint Sim.console0)].
Proof.
  apply (move_then_move Py.fadd Py.fsub Sim.console0 Sim.reads_395
           (Number (Py.float_of_Z 395)) (Py.float_of_Z 395)).
  - in_run.
  - reflexivity.
Defined.

Lemma refresh_then_move_witness :
  writes (events (move Py.fadd
                    (locals (command "r" Sim.console0 Sim.first_read_fails))
                    (env (command "r" Sim.console0 Sim.first_read_fails))))
  = [("Goal_Position",
      Py.fadd (Py.float_of_Z 100) (step_size Sim.console0),
      selected_joint Sim.console0)].
Proof.
  apply (refresh_then_move Py.fadd Sim.console0 Sim.first_read_fails
           (Raise (Exception "ConnectionError" "timeout"))
           (Py.float_of_Z 100)).
  - in_run.
  - vm_compute; reflexivity.
Defined.

Lemma upload_checks_before_calls_witness :
  Hub.hub_calls
    (Hub.events_of
       (Hub.upload_dataset_to_hf "data" "user/set" "v2.1" "socks" false
          (Hub.Sim [Hub.Path "data"] []))) = [] /\
  (forall level,
     Hub.logged level
       (Hub.events_of
          (Hub.upload_dataset_to_hf "data" "user/set" "v2.1" "socks" false
             (Hub.Sim [Hub.Path "data"] []))) = []) /\
  exists e,
    Hub.result_of
      (Hub.upload_dataset_to_hf "data" "user/set" "v2.1" "socks" false
         (Hub.Sim [Hub.Path "data"] [])) = Hub.Raised e.
Proof.
  apply (upload_checks_before_calls "data" "user/set" "v2.1" "socks" false
           (Hub.Sim [Hub.Path "data"] [])).
  intros (_ & H & _). vm_compute in H. discriminate H.
Defined.

Lemma upload_order_witness :
  In (Hub.UploadFolder (Hub.Path "data") "user/set" "dataset"
        ("Upload dataset with version " ++ "v2.1") (Hub.Done tt))
     (Hub.events_of
        (Hub.upload_dataset_to_hf "data" "user/set" "v2.1" "socks" false
           (Hub.Sim Hub.dataset_files []))).
Proof.
  apply (proj2 (upload_order "data" "user/set" "v2.1" "socks" false
                  (Hub.Sim Hub.dataset_files []))
           "user/set" "v2.1" "dataset" (Hub.Done tt)).
  in_run.
Defined.

Lemma upload_reraises_witness :
  Hub.result_of
    (Hub.upload_dataset_to_hf "data" "user/set" "v2.1" "socks" false
       (Hub.Sim Hub.dataset_files
          [Hub.Done tt; Hub.Done tt; Hub.Done tt;
           Hub.Raised (Hub.HTTPError (Some 500%Z) [Hub.Str "server error"])]))
  = Hub.Raised (Hub.HTTPError (Some 500%Z) [Hub.Str "server error"]).
Proof.
  apply (upload_reraises "data" "user/set" "v2.1" "socks" false
           (Hub.Sim Hub.dataset_files
              [Hub.Done tt; Hub.Done tt; Hub.Done tt;
               Hub.Raised (Hub.HTTPError (Some 500%Z)
                             [Hub.Str "server error"])])
           (Hub.UploadFolder (Hub.Path "data") "user/set" "dataset"
              ("Upload dataset with version " ++ "v2.1")
              (Hub.Raised (Hub.HTTPError (Some 500%Z)
                             [Hub.Str "server error"])))).
  - in_run.
  - reflexivity.
Defined.

Lemma upload_returns_url_witness :
  Hub.result_of
    (Hub.upload_dataset_to_hf "data" "user/set" "v2.1" "socks" true
       (Hub.Sim Hub.dataset_files []))
  = Hub.Done "https://huggingface.co/datasets/user/set" /\
  Hub.hub_calls
    (Hub.events_of
       (Hub.upload_dataset_to_hf "data" "user/set" "v2.1" "socks" true
          (Hub.Sim Hub.dataset_files [])))
  = [Hub.CreateRepo "user/set" "dataset" true true (Hub.Done tt);
     Hub.UploadFolder (Hub.Path "data") "user/set" "dataset"
       ("Upload dataset with version " ++ "v2.1") (Hub.Done tt);
     Hub.CreateBranch "user/set" "v2.1" "dataset" (Hub.Done tt)].
Proof.
  assert (H : Hub.result_of
                (Hub.upload_dataset_to_hf "data" "user/set" "v2.1" "socks"
                   true (Hub.Sim Hub.dataset_files []))
              = Hub.Done "https://huggingface.co/datasets/user/set").
  { vm_compute; reflexivity. }
  split; [exact H|].
  apply (upload_returns_url "data" "user/set" "v2.1" "socks" true
           (Hub.Sim Hub.dataset_files []) _ H).
Defined.

Lemma delete_branch_main_reports_witness :
  Hub.logged "ERROR"
    (Hub.events_of
       (Hub.delete_branch_main (Hub.DeleteArgs "user/set" "old" "dataset")
          (Hub.Sim [] [Hub.Raised (Hub.HTTPError (Some 404%Z)
                                    [Hub.Str "not found"])])))
  <> [].
Proof.
  apply (proj2 (delete_branch_main_reports
                  (Hub.DeleteArgs "user/set" "old" "dataset")
                  (Hub.Sim [] [Hub.Raised (Hub.HTTPError (Some 404%Z)
                                            [Hub.Str "not found"])]))).
  exists (Hub.HTTPError (Some 404%Z) [Hub.Str "not found"]).
  split; reflexivity.
Defined.
